(** * dm-data-type-converter: a shallow embedding of [main.py]

    The converter class [DataTypeConverter] and the command-line entry point
    [main] are embedded as Rocq functions.  Python values are a small tagged
    union, Python [str] is a list of code points, [bytes] is a list of
    integers in [0, 256), raised exceptions are the left summand of a sum
    type, and the log records and printed lines of a call are collected in a
    writer monad. *)

From Stdlib Require Import String Ascii Bool ZArith QArith Lia List.
Import ListNotations.
Local Open Scope Z_scope.

(** ** Python data *)

(** A [str] is a sequence of code points (integers in [0, 0x10FFFF]); lone
    surrogates are legal members of a Python [str]. *)
Definition pystr := list Z.

(** [bytes]: every element is meant to lie in [0, 256). *)
Definition pybytes := list Z.

(** A Rocq string literal read as a Python [str] literal. *)
Fixpoint py (s : string) : pystr :=
  match s with
  | EmptyString => []
  | String c s' => Z.of_nat (nat_of_ascii c) :: py s'
  end.
Arguments py _%_string.

Definition is_code_point (c : Z) : Prop := 0 <= c < 0x110000.
Definition is_surrogate (c : Z) : bool := (0xD800 <=? c) && (c <=? 0xDFFF).
Definition is_byte (b : Z) : Prop := 0 <= b < 256.

(** Text: every element is a code point. *)
Definition is_text (s : pystr) : Prop := Forall is_code_point s.

(** Text that UTF-8 can encode: no code point is a surrogate. *)
Definition no_surrogate (s : pystr) : Prop :=
  Forall (fun c => is_surrogate c = false) s.

Inductive value :=
| VInt (n : Z)
| VBool (b : bool)
| VStr (s : pystr)
| VBytes (b : pybytes)
| VNone.

(** [isinstance(data, str)] *)
Definition isinstance_str (data : value) : bool :=
  match data with VStr _ => true | _ => false end.

(** ** Exceptions *)

Inductive exn :=
| TypeError (msg : pystr)
| ValueError (msg : pystr)
| IndexError (msg : pystr)
| UnicodeEncodeError (encoding : pystr) (object : pystr)
                     (start stop : nat) (reason : pystr)
| UnicodeDecodeError (encoding : pystr) (object : pybytes)
                     (start stop : nat) (reason : pystr).

(** [isinstance(e, TypeError)] and [isinstance(e, ValueError)]: the two
    Unicode errors derive from [UnicodeError], itself a [ValueError]. *)
Definition is_TypeError (e : exn) : bool :=
  match e with TypeError _ => true | _ => false end.

Definition is_ValueError (e : exn) : bool :=
  match e with
  | ValueError _ | UnicodeEncodeError _ _ _ _ _
  | UnicodeDecodeError _ _ _ _ _ => true
  | _ => false
  end.

(** ** Digits *)

Definition hexdigits : pystr := py "0123456789abcdef".

Definition hexdigit (d : Z) : Z := nth (Z.to_nat d) hexdigits 0.

(** The digits of [n] in base 16, most significant first; the loop emits
    the low nibble and shifts until nothing is left, so [0] gives one digit. *)
Fixpoint hex_digits_loop (fuel : nat) (n : Z) (acc : pystr) : pystr :=
  match fuel with
  | O => acc
  | S fuel' =>
      let acc' := hexdigit (Z.land n 15) :: acc in
      if Z.shiftr n 4 =? 0 then acc'
      else hex_digits_loop fuel' (Z.shiftr n 4) acc'
  end.

Definition hex_digits (n : Z) : pystr :=
  hex_digits_loop (S (Z.to_nat (Z.log2 n))) n [].

(** Builtin [hex(n)]: sign, then [0x], then the digits of the magnitude. *)
Definition py_hex (n : Z) : pystr :=
  if n <? 0 then py "-0x" ++ hex_digits (- n) else py "0x" ++ hex_digits n.

(** [%0<w>x]: lowercase hexadecimal, zero-padded on the left to width [w]. *)
Definition hex_pad (w : nat) (n : Z) : pystr :=
  let d := hex_digits n in
  repeat 48 (w - length d) ++ d.

Fixpoint dec_digits_loop (fuel : nat) (n : Z) (acc : pystr) : pystr :=
  match fuel with
  | O => acc
  | S fuel' =>
      let acc' := (48 + n mod 10) :: acc in
      if n / 10 =? 0 then acc' else dec_digits_loop fuel' (n / 10) acc'
  end.

(** [%d] of a non-negative offset. *)
Definition dec_nat (n : nat) : pystr :=
  dec_digits_loop (S n) (Z.of_nat n) [].

(** ** [str(e)] *)

(** The escape CPython prints for the offending character of an encode
    error: [\xNN], [\uNNNN] or [\UNNNNNNNN] by magnitude. *)
Definition escape_char (c : Z) : pystr :=
  if c <=? 0xff then py "\x" ++ hex_pad 2 c
  else if c <=? 0xffff then py "\u" ++ hex_pad 4 c
  else py "\U" ++ hex_pad 8 c.

Definition exn_str (e : exn) : pystr :=
  match e with
  | TypeError msg | ValueError msg | IndexError msg => msg
  | UnicodeEncodeError enc obj start stop reason =>
      if andb (start <? length obj)%nat (stop =? start + 1)%nat then
        py "'" ++ enc ++ py "' codec can't encode character '"
        ++ escape_char (nth start obj 0) ++ py "' in position "
        ++ dec_nat start ++ py ": " ++ reason
      else
        py "'" ++ enc ++ py "' codec can't encode characters in position "
        ++ dec_nat start ++ py "-" ++ dec_nat (stop - 1) ++ py ": " ++ reason
  | UnicodeDecodeError enc obj start stop reason =>
      if andb (start <? length obj)%nat (stop =? start + 1)%nat then
        py "'" ++ enc ++ py "' codec can't decode byte 0x"
        ++ hex_pad 2 (nth start obj 0) ++ py " in position "
        ++ dec_nat start ++ py ": " ++ reason
      else
        py "'" ++ enc ++ py "' codec can't decode bytes in position "
        ++ dec_nat start ++ py "-" ++ dec_nat (stop - 1) ++ py ": " ++ reason
  end.

(** ** Effects: raised exceptions, log records, printed lines

    The records of the [logging] module (which the default handler also
    writes to standard error, with a time stamp) are kept apart from the
    lines the program prints itself. *)

Inductive event :=
| LogError (msg : pystr)                (* logging.error *)
| LogException (msg : pystr) (e : exn)  (* logging.exception: with traceback *)
| Stdout (line : pystr)                 (* print(...) *)
| Stderr (line : pystr).                (* print(..., file=sys.stderr) *)

Definition M (A : Type) : Type := list event * (exn + A).

Definition ret {A} (a : A) : M A := ([], inr a).
Definition raise {A} (e : exn) : M A := ([], inl e).
Definition emit (ev : event) : M unit := ([ev], inr tt).

Definition bind {A B} (m : M A) (k : A -> M B) : M B :=
  match m with
  | (l, inl e) => (l, inl e)
  | (l, inr a) => let (l', r) := k a in (l ++ l', r)
  end.

(** [try: m  except Exception as e: h e] *)
Definition try_except {A} (m : M A) (h : exn -> M A) : M A :=
  match m with
  | (l, inl e) => let (l', r) := h e in (l ++ l', r)
  | (l, inr a) => (l, inr a)
  end.

(** A pure builtin that may raise, run inside [M]. *)
Definition lift {A} (r : exn + A) : M A := ([], r).

Notation "x <- m ;; k" := (bind m (fun x => k))
  (at level 61, m at next level, right associativity).
Notation "m ;;; k" := (bind m (fun _ => k))
  (at level 61, right associativity).

(** What a call returns or raises. *)
Definition outcome {A} (m : M A) : exn + A := snd m.

(** ** Builtins of the [str] and [bytes] types *)

Definition fmap {A B} (f : A -> B) (r : exn + A) : exn + B :=
  match r with inl e => inl e | inr a => inr (f a) end.

Fixpoint take_while {A} (p : A -> bool) (l : list A) : list A :=
  match l with
  | [] => []
  | x :: l' => if p x then x :: take_while p l' else []
  end.

(** [object.encode('utf-8')] with the strict error handler: a surrogate
    raises [UnicodeEncodeError] over the whole run of surrogates that
    starts there. *)
Fixpoint utf8_encoder (object : pystr) (pos : nat) (s : pystr)
  : exn + pybytes :=
  match s with
  | [] => inr []
  | ch :: rest =>
      if ch <? 0x80 then
        fmap (cons ch) (utf8_encoder object (S pos) rest)
      else if ch <? 0x800 then
        fmap (fun t => Z.lor 0xC0 (Z.shiftr ch 6)
                       :: Z.lor 0x80 (Z.land ch 0x3F) :: t)
             (utf8_encoder object (S pos) rest)
      else if is_surrogate ch then
        inl (UnicodeEncodeError (py "utf-8") object pos
               (S pos + length (take_while is_surrogate rest))
               (py "surrogates not allowed"))
      else if ch <? 0x10000 then
        fmap (fun t => Z.lor 0xE0 (Z.shiftr ch 12)
                       :: Z.lor 0x80 (Z.land (Z.shiftr ch 6) 0x3F)
                       :: Z.lor 0x80 (Z.land ch 0x3F) :: t)
             (utf8_encoder object (S pos) rest)
      else
        fmap (fun t => Z.lor 0xF0 (Z.shiftr ch 18)
                       :: Z.lor 0x80 (Z.land (Z.shiftr ch 12) 0x3F)
                       :: Z.lor 0x80 (Z.land (Z.shiftr ch 6) 0x3F)
                       :: Z.lor 0x80 (Z.land ch 0x3F) :: t)
             (utf8_encoder object (S pos) rest)
  end.

Definition str_encode_utf8 (s : pystr) : exn + pybytes :=
  utf8_encoder s 0 s.

(** [bytes.hex()]: two lowercase digits per byte, nothing in between. *)
Fixpoint bytes_hex (b : pybytes) : pystr :=
  match b with
  | [] => []
  | x :: b' =>
      hexdigit (Z.shiftr x 4) :: hexdigit (Z.land x 15) :: bytes_hex b'
  end.

Definition is_continuation (b : Z) : bool := (0x80 <=? b) && (b <? 0xC0).

Definition decode_error (object : pybytes) (start stop : nat) (reason : string)
  : exn + pystr :=
  inl (UnicodeDecodeError (py "utf-8") object start stop (py reason)).

(** [object.decode('utf-8')] with the strict error handler: overlong forms,
    encoded surrogates and values above 0x10FFFF are refused through the
    range of the second byte. *)
Fixpoint utf8_decoder (object : pybytes) (pos : nat) (b : pybytes)
  : exn + pystr :=
  match b with
  | [] => inr []
  | b0 :: r0 =>
      if b0 <? 0x80 then
        fmap (cons b0) (utf8_decoder object (pos + 1) r0)
      else if (b0 <? 0xC2) || (0xF4 <? b0) then
        decode_error object pos (pos + 1) "invalid start byte"
      else if b0 <? 0xE0 then
        match r0 with
        | [] => decode_error object pos (length object) "unexpected end of data"
        | b1 :: r1 =>
            if is_continuation b1 then
              fmap (cons (Z.lor (Z.shiftl (Z.land b0 0x1F) 6) (Z.land b1 0x3F)))
                   (utf8_decoder object (pos + 2) r1)
            else decode_error object pos (pos + 1) "invalid continuation byte"
        end
      else if b0 <? 0xF0 then
        match r0 with
        | [] => decode_error object pos (length object) "unexpected end of data"
        | b1 :: r1 =>
            if negb (is_continuation b1)
               || (if b1 <? 0xA0 then b0 =? 0xE0 else b0 =? 0xED)
            then decode_error object pos (pos + 1) "invalid continuation byte"
            else
              match r1 with
              | [] => decode_error object pos (length object)
                                   "unexpected end of data"
              | b2 :: r2 =>
                  if is_continuation b2 then
                    fmap (cons (Z.lor (Z.shiftl (Z.land b0 0x0F) 12)
                                  (Z.lor (Z.shiftl (Z.land b1 0x3F) 6)
                                         (Z.land b2 0x3F))))
                         (utf8_decoder object (pos + 3) r2)
                  else decode_error object pos (pos + 2)
                                    "invalid continuation byte"
              end
        end
      else
        match r0 with
        | [] => decode_error object pos (length object) "unexpected end of data"
        | b1 :: r1 =>
            if negb (is_continuation b1)
               || (if b1 <? 0x90 then b0 =? 0xF0 else b0 =? 0xF4)
            then decode_error object pos (pos + 1) "invalid continuation byte"
            else
              match r1 with
              | [] => decode_error object pos (length object)
                                   "unexpected end of data"
              | b2 :: r2 =>
                  if is_continuation b2 then
                    match r2 with
                    | [] => decode_error object pos (length object)
                                         "unexpected end of data"
                    | b3 :: r3 =>
                        if is_continuation b3 then
                          fmap (cons (Z.lor (Z.shiftl (Z.land b0 0x07) 18)
                                        (Z.lor (Z.shiftl (Z.land b1 0x3F) 12)
                                           (Z.lor (Z.shiftl (Z.land b2 0x3F) 6)
                                                  (Z.land b3 0x3F)))))
                               (utf8_decoder object (pos + 4) r3)
                        else decode_error object pos (pos + 3)
                                          "invalid continuation byte"
                    end
                  else decode_error object pos (pos + 2)
                                    "invalid continuation byte"
              end
        end
  end.

Definition bytes_decode_utf8 (b : pybytes) : exn + pystr :=
  utf8_decoder b 0 b.

(** ** [base64] *)

Definition b64alphabet : pystr :=
  py "ABCDEFGHIJKLMNOPQRSTUVWXYZabcdefghijklmnopqrstuvwxyz0123456789+/".

Definition b64char (i : Z) : Z := nth (Z.to_nat i) b64alphabet 0.

(** The padding character [=]. *)
Definition b64pad : Z := 61.

(** [base64.b64encode]: RFC 4648, three bytes to four characters, the last
    group padded with [=]. *)
Fixpoint b64encode (b : pybytes) : pybytes :=
  match b with
  | [] => []
  | x :: r0 =>
      match r0 with
      | [] => [b64char (Z.shiftr x 2);
               b64char (Z.shiftl (Z.land x 3) 4);
               b64pad; b64pad]
      | y :: r1 =>
          match r1 with
          | [] => [b64char (Z.shiftr x 2);
                   b64char (Z.lor (Z.shiftl (Z.land x 3) 4) (Z.shiftr y 4));
                   b64char (Z.shiftl (Z.land y 15) 2);
                   b64pad]
          | z :: r2 =>
              b64char (Z.shiftr x 2)
              :: b64char (Z.lor (Z.shiftl (Z.land x 3) 4) (Z.shiftr y 4))
              :: b64char (Z.lor (Z.shiftl (Z.land y 15) 2) (Z.shiftr z 6))
              :: b64char (Z.land z 63)
              :: b64encode r2
          end
      end
  end.

(** ** [hashlib.md5] (RFC 1321) *)

Definition wrap32 (x : Z) : Z := Z.land x 0xFFFFFFFF.

Definition rotl32 (x c : Z) : Z :=
  wrap32 (Z.lor (Z.shiftl x c) (Z.shiftr x (32 - c))).

Definition md5_K : list Z :=
  [0xd76aa478; 0xe8c7b756; 0x242070db; 0xc1bdceee;
   0xf57c0faf; 0x4787c62a; 0xa8304613; 0xfd469501;
   0x698098d8; 0x8b44f7af; 0xffff5bb1; 0x895cd7be;
   0x6b901122; 0xfd987193; 0xa679438e; 0x49b40821;
   0xf61e2562; 0xc040b340; 0x265e5a51; 0xe9b6c7aa;
   0xd62f105d; 0x02441453; 0xd8a1e681; 0xe7d3fbc8;
   0x21e1cde6; 0xc33707d6; 0xf4d50d87; 0x455a14ed;
   0xa9e3e905; 0xfcefa3f8; 0x676f02d9; 0x8d2a4c8a;
   0xfffa3942; 0x8771f681; 0x6d9d6122; 0xfde5380c;
   0xa4beea44; 0x4bdecfa9; 0xf6bb4b60; 0xbebfbc70;
   0x289b7ec6; 0xeaa127fa; 0xd4ef3085; 0x04881d05;
   0xd9d4d039; 0xe6db99e5; 0x1fa27cf8; 0xc4ac5665;
   0xf4292244; 0x432aff97; 0xab9423a7; 0xfc93a039;
   0x655b59c3; 0x8f0ccc92; 0xffeff47d; 0x85845dd1;
   0x6fa87e4f; 0xfe2ce6e0; 0xa3014314; 0x4e0811a1;
   0xf7537e82; 0xbd3af235; 0x2ad7d2bb; 0xeb86d391].

Definition md5_S : list Z :=
  [7; 12; 17; 22; 7; 12; 17; 22; 7; 12; 17; 22; 7; 12; 17; 22;
   5; 9; 14; 20; 5; 9; 14; 20; 5; 9; 14; 20; 5; 9; 14; 20;
   4; 11; 16; 23; 4; 11; 16; 23; 4; 11; 16; 23; 4; 11; 16; 23;
   6; 10; 15; 21; 6; 10; 15; 21; 6; 10; 15; 21; 6; 10; 15; 21].

Record md5_state := MD5 { md5_a : Z; md5_b : Z; md5_c : Z; md5_d : Z }.

Definition md5_init : md5_state :=
  MD5 0x67452301 0xefcdab89 0x98badcfe 0x10325476.

(** One of the 64 steps on the sixteen words [X] of a block. *)
Definition md5_step (X : list Z) (st : md5_state) (i : nat) : md5_state :=
  let '(MD5 a b c d) := st in
  let zi := Z.of_nat i in
  let '(f, g) :=
    if zi <? 16 then (Z.lor (Z.land b c) (Z.land (Z.lnot b) d), zi)
    else if zi <? 32 then
      (Z.lor (Z.land d b) (Z.land (Z.lnot d) c), (5 * zi + 1) mod 16)
    else if zi <? 48 then (Z.lxor b (Z.lxor c d), (3 * zi + 5) mod 16)
    else (Z.lxor c (Z.lor b (Z.lnot d)), (7 * zi) mod 16) in
  let t := wrap32 (wrap32 f + a + nth i md5_K 0 + nth (Z.to_nat g) X 0) in
  MD5 d (wrap32 (b + rotl32 t (nth i md5_S 0))) b c.

(** Little-endian 32-bit words of a byte string, four bytes at a time. *)
Fixpoint le_words (b : pybytes) : list Z :=
  match b with
  | b0 :: b1 :: b2 :: b3 :: r =>
      Z.lor b0 (Z.lor (Z.shiftl b1 8) (Z.lor (Z.shiftl b2 16) (Z.shiftl b3 24)))
      :: le_words r
  | _ => []
  end.

Definition le_bytes (n : nat) (w : Z) : pybytes :=
  map (fun i => Z.land (Z.shiftr w (8 * Z.of_nat i)) 0xFF) (seq 0 n).

Definition md5_block (st : md5_state) (block : pybytes) : md5_state :=
  let '(MD5 a b c d) := fold_left (md5_step (le_words block)) (seq 0 64) st in
  MD5 (wrap32 (md5_a st + a)) (wrap32 (md5_b st + b))
      (wrap32 (md5_c st + c)) (wrap32 (md5_d st + d)).

(** The message, a [1] bit, zeros up to 56 modulo 64, then the bit length
    on 64 bits. *)
Definition md5_pad (msg : pybytes) : pybytes :=
  let len := Z.of_nat (length msg) in
  msg ++ [0x80] ++ repeat 0 (Z.to_nat ((55 - len) mod 64))
      ++ le_bytes 8 ((8 * len) mod 2 ^ 64).

Fixpoint md5_blocks (n : nat) (st : md5_state) (b : pybytes) : md5_state :=
  match n with
  | O => st
  | S n' => md5_blocks n' (md5_block st (firstn 64 b)) (skipn 64 b)
  end.

Definition md5_digest (msg : pybytes) : pybytes :=
  let p := md5_pad msg in
  let '(MD5 a b c d) := md5_blocks (length p / 64) md5_init p in
  le_bytes 4 a ++ le_bytes 4 b ++ le_bytes 4 c ++ le_bytes 4 d.

(** [hashlib.md5(data).hexdigest()] *)
Definition md5_hexdigest (msg : pybytes) : pystr := bytes_hex (md5_digest msg).

(** ** [class DataTypeConverter] *)

(** [to_hex]: the whole body is inside the [try]; a [ValueError] is logged
    with [logging.error], anything else with [logging.exception], and both
    are raised again.  [bool] is a subclass of [int]. *)
Definition to_hex (data : value) : M pystr :=
  try_except
    (match data with
     | VInt n => ret (py_hex n)
     | VBool b => ret (py_hex (Z.b2z b))
     | VStr s => b <- lift (str_encode_utf8 s) ;; ret (bytes_hex b)
     | _ => raise (TypeError (py "Input must be an integer or string."))
     end)
    (fun e =>
       if is_ValueError e then
         emit (LogError (py "Error converting to hex: " ++ exn_str e)) ;;;
         raise e
       else
         emit (LogException
                 (py "Unexpected error during hex conversion: " ++ exn_str e)
                 e) ;;;
         raise e).

(** [to_base64]: the type test comes before the [try]. *)
Definition to_base64 (data : value) : M pystr :=
  match data with
  | VStr s =>
      try_except
        (data_bytes <- lift (str_encode_utf8 s) ;;
         let base64_bytes := b64encode data_bytes in
         lift (bytes_decode_utf8 base64_bytes))
        (fun e =>
           if is_ValueError e then
             emit (LogError (py "Error converting to base64: " ++ exn_str e)) ;;;
             raise e
           else
             emit (LogException
                     (py "Unexpected error during base64 conversion: "
                      ++ exn_str e) e) ;;;
             raise e)
  | _ => raise (TypeError (py "Input must be a string."))
  end.

Definition to_md5 (data : value) : M pystr :=
  match data with
  | VStr s =>
      try_except
        (data_bytes <- lift (str_encode_utf8 s) ;;
         let md5_hash := md5_hexdigest data_bytes in
         ret md5_hash)
        (fun e =>
           emit (LogException
                   (py "Unexpected error during MD5 hash generation: "
                    ++ exn_str e) e) ;;;
           raise e)
  | _ => raise (TypeError (py "Input must be a string."))
  end.

(** A bound method with its [__name__]. *)
Record bound_method := Method {
  method_name : pystr;
  method_call : value -> M pystr
}.

(** [methods = [self.to_hex, self.to_base64, self.to_md5]] *)
Definition methods : list bound_method :=
  [Method (py "to_hex") to_hex;
   Method (py "to_base64") to_base64;
   Method (py "to_md5") to_md5].

Section RandomSource.

(** The value [random._randbelow(n)] returns in this call. *)
Variable randbelow : nat -> nat.

(** [random.choice(seq)] is [seq[_randbelow(len(seq))]]. *)
Definition random_choice {A} (seq : list A) : exn + A :=
  match seq with
  | [] => inl (IndexError (py "Cannot choose from an empty sequence"))
  | _ =>
      match nth_error seq (randbelow (length seq)) with
      | Some x => inr x
      | None => inl (IndexError (py "list index out of range"))
      end
  end.

Definition randomly_convert (data : value) : M pystr :=
  match data with
  | VStr _ =>
      chosen_method <- lift (random_choice methods) ;;
      try_except
        (method_call chosen_method data)
        (fun e =>
           emit (LogError (py "Error during random conversion using "
                           ++ method_name chosen_method ++ py ": "
                           ++ exn_str e)) ;;;
           raise e)
  | _ => raise (TypeError (py "Input must be a string."))
  end.

End RandomSource.

(** ** Builtin [int(str)] *)

(** [Py_ISSPACE]: the six ASCII white-space characters. *)
Definition Py_ISSPACE (c : Z) : bool :=
  ((9 <=? c) && (c <=? 13)) || (c =? 32).

Definition is_ascii_digit (c : Z) : bool := (48 <=? c) && (c <=? 57).

Fixpoint skip_spaces (s : pystr) : pystr :=
  match s with
  | c :: s' => if Py_ISSPACE c then skip_spaces s' else s
  | [] => []
  end.

(** The digit scan of [PyLong_FromString] in base 10: digits, with single
    underscores between them.  [prev] is the character before, [acc] the
    value so far, [digits] how many digits were read.  [None] is a
    misplaced underscore. *)
Fixpoint scan_digits (prev : Z) (digits : nat) (acc : Z) (s : pystr)
  : option (nat * Z * pystr) :=
  match s with
  | c :: s' =>
      if is_ascii_digit c then
        scan_digits c (S digits) (10 * acc + (c - 48)) s'
      else if c =? 95 then
        if prev =? 95 then None else scan_digits c digits acc s'
      else if prev =? 95 then None else Some (digits, acc, s)
  | [] => if prev =? 95 then None else Some (digits, acc, [])
  end.

Section UnicodeTables.

(** The Unicode database of the interpreter: white space and decimal
    digit values of the characters outside ASCII, and
    [sys.get_int_max_str_digits()] (0: no limit). *)
Variable Py_UNICODE_ISSPACE : Z -> bool.
Variable Py_UNICODE_TODECIMAL : Z -> option Z.
Variable int_max_str_digits : nat.

(** Characters outside ASCII become a space or an ASCII digit; the first
    that is neither becomes [?] and ends the string. *)
Fixpoint transform_decimal_and_space (s : pystr) : pystr :=
  match s with
  | [] => []
  | ch :: s' =>
      if ch <? 127 then ch :: transform_decimal_and_space s'
      else if Py_UNICODE_ISSPACE ch then
        32 :: transform_decimal_and_space s'
      else
        match Py_UNICODE_TODECIMAL ch with
        | Some d => (48 + d) :: transform_decimal_and_space s'
        | None => [63]
        end
  end.

(** The digit limit applies above 640 digits only. *)
Definition exceeds_digit_limit (digits : nat) : bool :=
  ((640 <? digits) && (0 <? int_max_str_digits)
   && (int_max_str_digits <? digits))%nat.

(** [int(s)] in base 10; [None] stands for the [ValueError] it raises. *)
Definition py_int (s : pystr) : option Z :=
  let buffer :=
    if forallb (fun ch => ch <? 128) s then s
    else transform_decimal_and_space s in
  let str := skip_spaces buffer in
  let '(sign, str) :=
    match str with
    | 43 :: r => (1, r)
    | 45 :: r => (-1, r)
    | _ => (1, str)
    end in
  match str with
  | 95 :: _ => None
  | _ =>
      match scan_digits 0 0 0 str with
      | None => None
      | Some (digits, acc, rest) =>
          if (digits =? 0)%nat then None
          else if exceeds_digit_limit digits then None
          else
            match skip_spaces rest with
            | [] => Some (sign * acc)
            | _ :: _ => None
            end
      end
  end.

End UnicodeTables.

(** ** The command line *)

Fixpoint pystr_eqb (s t : pystr) : bool :=
  match s, t with
  | [], [] => true
  | c :: s', d :: t' => (c =? d) && pystr_eqb s' t'
  | _, _ => false
  end.

(** The namespace [parser.parse_args()] returns. *)
Record namespace := Args { args_data : pystr; args_method : pystr }.

Section Main.

Variable Py_UNICODE_ISSPACE : Z -> bool.
Variable Py_UNICODE_TODECIMAL : Z -> option Z.
Variable int_max_str_digits : nat.
Variable randbelow : nat -> nat.

Definition parse_int : pystr -> option Z :=
  py_int Py_UNICODE_ISSPACE Py_UNICODE_TODECIMAL int_max_str_digits.

(** The dispatch on [args.method], up to the assignment of
    [converted_data]. *)
Definition convert (args : namespace) : M pystr :=
  if pystr_eqb (args_method args) (py "hex") then
    let data :=
      match parse_int (args_data args) with
      | Some n => VInt n
      | None => VStr (args_data args)
      end in
    to_hex data
  else if pystr_eqb (args_method args) (py "base64") then
    to_base64 (VStr (args_data args))
  else if pystr_eqb (args_method args) (py "md5") then
    to_md5 (VStr (args_data args))
  else
    randomly_convert randbelow (VStr (args_data args)).

(** [main]: the events of the run and the exit status of the process. *)
Definition main (args : namespace) : list event * Z :=
  match
    (converted_data <- convert args ;;
     emit (Stdout (py "Converted data: " ++ converted_data)))
  with
  | (l, inr _) => (l, 0)
  | (l, inl e) =>
      if is_TypeError e then
        (l ++ [LogError (py "Type error: " ++ exn_str e);
               Stderr (py "Error: " ++ exn_str e)], 1)
      else if is_ValueError e then
        (l ++ [LogError (py "Value error: " ++ exn_str e);
               Stderr (py "Error: " ++ exn_str e)], 1)
      else
        (l ++ [LogException
                 (py "An unexpected error occurred: " ++ exn_str e) e;
               Stderr (py "An unexpected error occurred: " ++ exn_str e)],
         1)
  end.

End Main.

(** ** Reference notions the properties are stated with *)

Definition is_lower_hex (c : Z) : bool :=
  ((48 <=? c) && (c <=? 57)) || ((97 <=? c) && (c <=? 102)).

Definition hex_digit_value (c : Z) : option Z :=
  if (48 <=? c) && (c <=? 57) then Some (c - 48)
  else if (97 <=? c) && (c <=? 102) then Some (c - 87)
  else None.

(** The number a non-empty string of lowercase hexadecimal digits denotes. *)
Fixpoint hex_value_from (acc : Z) (d : pystr) : option Z :=
  match d with
  | [] => Some acc
  | c :: d' =>
      match hex_digit_value c with
      | Some v => hex_value_from (16 * acc + v) d'
      | None => None
      end
  end.

Definition hex_value (d : pystr) : option Z :=
  match d with [] => None | _ => hex_value_from 0 d end.

(** No leading zero, except for the numeral [0] itself. *)
Definition no_leading_zero (d : pystr) : Prop :=
  d = [48] \/ hd 48 d <> 48.

(** [bytes.fromhex]: two digits per byte. *)
Fixpoint bytes_fromhex (h : pystr) : option pybytes :=
  match h with
  | [] => Some []
  | hi :: lo :: h' =>
      match hex_digit_value hi, hex_digit_value lo, bytes_fromhex h' with
      | Some x, Some y, Some b => Some ((16 * x + y) :: b)
      | _, _, _ => None
      end
  | _ => None
  end.

Fixpoint index_of (c : Z) (l : list Z) (i : Z) : option Z :=
  match l with
  | [] => None
  | x :: l' => if x =? c then Some i else index_of c l' (i + 1)
  end.

Definition b64value (c : Z) : option Z := index_of c b64alphabet 0.

(** Standard base64 decoding (RFC 4648): groups of four characters of the
    alphabet, [=] padding allowed in the last group only. *)
Fixpoint b64decode (s : pystr) : option pybytes :=
  match s with
  | [] => Some []
  | c0 :: c1 :: c2 :: c3 :: rest =>
      match b64value c0, b64value c1 with
      | Some v0, Some v1 =>
          let x := Z.lor (Z.shiftl v0 2) (Z.shiftr v1 4) in
          if (c3 =? b64pad) && (match rest with [] => true | _ => false end)
          then
            if c2 =? b64pad then Some [x]
            else
              match b64value c2 with
              | Some v2 =>
                  Some [x; Z.lor (Z.shiftl (Z.land v1 15) 4) (Z.shiftr v2 2)]
              | None => None
              end
          else
            match b64value c2, b64value c3, b64decode rest with
            | Some v2, Some v3, Some b =>
                Some (x :: Z.lor (Z.shiftl (Z.land v1 15) 4) (Z.shiftr v2 2)
                        :: Z.lor (Z.shiftl (Z.land v2 3) 6) v3 :: b)
            | _, _, _ => None
            end
      | _, _ => None
      end
  | _ => None
  end.

(** The bytes of one code point, in arithmetic form. *)
Definition utf8_char (ch : Z) : pybytes :=
  if ch <? 0x80 then [ch]
  else if ch <? 0x800 then [192 + ch / 64; 128 + ch mod 64]
  else if ch <? 0x10000 then
    [224 + ch / 4096; 128 + (ch / 64) mod 64; 128 + ch mod 64]
  else
    [240 + ch / 262144; 128 + (ch / 4096) mod 64;
     128 + (ch / 64) mod 64; 128 + ch mod 64].

(** The contract of [_randbelow]: a value below its argument. *)
Definition randbelow_ok (randbelow : nat -> nat) : Prop :=
  forall n, (0 < n)%nat -> (randbelow n < n)%nat.

(** The lines a run printed, on either stream. *)
Definition is_print (ev : event) : bool :=
  match ev with Stdout _ | Stderr _ => true | _ => false end.

Definition printed (l : list event) : list event := filter is_print l.

(** A call that either returns with no event at all, or raises a
    [ValueError] having only written log records. *)
Definition quiet_or_value_error (m : M pystr) : Prop :=
  (exists r, m = ret r)
  \/ (exists e l,
        m = (l, inl e) /\ is_ValueError e = true /\ printed l = []).

(** A random source that always draws the last index. *)
Definition draw_last (n : nat) : nat := Nat.pred n.

(** The name of the method [randomly_convert] selects when [_randbelow]
    returns [k]; nothing when [random.choice] raises. *)
Definition selected (k : nat) : option pystr :=
  match random_choice (fun _ => k) methods with
  | inr m => Some (method_name m)
  | inl _ => None
  end.

Definition selects (name : pystr) (k : nat) : bool :=
  match selected k with
  | Some name' => pystr_eqb name' name
  | None => false
  end.

(** The probability of an event on the value of [_randbelow(n)], for a
    random source that returns [k] with probability [pmf k]. *)
Definition probability (n : nat) (pmf : nat -> Q) (event : nat -> bool) : Q :=
  fold_right Qplus 0%Q
             (map (fun k => if event k then pmf k else 0%Q) (seq 0 n)).

(** A random source whose [_randbelow(n)] is uniform on [0, n). *)
Definition uniform_below (n : nat) (pmf : nat -> Q) : Prop :=
  forall k, (k < n)%nat -> (pmf k == 1 # Pos.of_nat n)%Q.

(** [isinstance(data, int)]: [bool] is a subclass of [int]. *)
Definition isinstance_int (data : value) : bool :=
  match data with VInt _ | VBool _ => true | _ => false end.

(** The number a string of ASCII decimal digits denotes. *)
Definition dec_value (ds : pystr) : Z :=
  fold_left (fun a c => 10 * a + (c - 48)) ds 0.

(** The ASCII characters an integer literal may contain: digits,
    underscore, sign and white space. *)
Definition int_char (c : Z) : bool :=
  is_ascii_digit c || (c =? 95) || (c =? 43) || (c =? 45) || Py_ISSPACE c.

Definition in_b64alphabet (c : Z) : bool := existsb (Z.eqb c) b64alphabet.

(** A character base64 text is made of: the alphabet and the padding. *)
Definition b64_symbol (c : Z) : bool := in_b64alphabet c || (c =? b64pad).

(** Decide a comparison that linear arithmetic settles. *)
Ltac decide_test :=
  match goal with
  | |- context [?a <? ?b] =>
      first [ replace (a <? b) with true by (symmetry; apply Z.ltb_lt; lia)
            | replace (a <? b) with false by (symmetry; apply Z.ltb_ge; lia) ]
  | |- context [?a <=? ?b] =>
      first [ replace (a <=? b) with true by (symmetry; apply Z.leb_le; lia)
            | replace (a <=? b) with false by (symmetry; apply Z.leb_gt; lia) ]
  | |- context [?a =? ?b] =>
      first [ replace (a =? b) with true by (symmetry; apply Z.eqb_eq; lia)
            | replace (a =? b) with false by (symmetry; apply Z.eqb_neq; lia) ]
  end.

Ltac decide_tests := repeat (decide_test; cbn [andb orb negb]).

(** * Proofs *)

(** ** The builtins on a few inputs *)

Example py_hex_examples :
  py_hex 42 = py "0x2a" /\ py_hex 0 = py "0x0" /\ py_hex 255 = py "0xff"
  /\ py_hex (-255) = py "-0xff".
Proof. repeat split. Qed.

Example to_base64_abc : to_base64 (VStr (py "abc")) = ret (py "YWJj").
Proof. reflexivity. Qed.

Example md5_hexdigest_empty :
  md5_hexdigest [] = py "d41d8cd98f00b204e9800998ecf8427e".
Proof. vm_compute. reflexivity. Qed.

(** Arabic-Indic and fullwidth digits and the no-break space, as the
    Unicode database has them. *)
Example py_int_examples :
  let isspace := fun c => c =? 0xA0 in
  let todecimal := fun c =>
    if (0x660 <=? c) && (c <=? 0x669) then Some (c - 0x660)
    else if (0xFF10 <=? c) && (c <=? 0xFF19) then Some (c - 0xFF10)
    else None in
  let int := py_int isspace todecimal 4300 in
  int (py "42") = Some 42 /\ int (py " +4_2 ") = Some 42
  /\ int (py "-042") = Some (-42) /\ int [0xA0; 0x664; 0xFF12] = Some 42
  /\ int (py "4__2") = None /\ int (py "_42") = None
  /\ int (py "42_") = None /\ int (py "- 42") = None
  /\ int (py "0x2a") = None /\ int (py "") = None
  /\ int (py "4 2") = None /\ int [0x34; 0x3000] = None
  /\ int (repeat 49 4301) = None.
Proof. vm_compute. repeat split. Qed.

(** ** Bit operations as arithmetic *)

Lemma range_forallb (P : Z -> bool) (n : nat) :
  forallb P (map Z.of_nat (seq 0 n)) = true ->
  forall k, 0 <= k < Z.of_nat n -> P k = true.
Proof.
  intros H k Hk.
  rewrite forallb_forall in H. apply H.
  apply in_map_iff. exists (Z.to_nat k). split; [lia|].
  apply in_seq. lia.
Qed.

Lemma land_low_bits a b k :
  0 <= k -> 0 <= b < 2 ^ k -> Z.land (Z.shiftl a k) b = 0.
Proof.
  intros Hk Hb. apply Z.bits_inj'. intros n Hn.
  rewrite Z.land_spec, Z.bits_0.
  destruct (Z.lt_ge_cases n k) as [Hlt|Hge].
  - rewrite Z.shiftl_spec_low by assumption. reflexivity.
  - destruct (Z.eq_dec b 0) as [->|Hnz].
    + rewrite Z.bits_0. apply andb_false_r.
    + rewrite (Z.bits_above_log2 b n); [apply andb_false_r|lia|].
      apply Z.log2_lt_pow2; try lia.
      apply Z.lt_le_trans with (2 ^ k); [lia|].
      apply Z.pow_le_mono_r; lia.
Qed.

Lemma lor_shiftl_add a b k :
  0 <= k -> 0 <= b < 2 ^ k -> Z.lor (Z.shiftl a k) b = a * 2 ^ k + b.
Proof.
  intros Hk Hb.
  rewrite <- (Z.shiftl_mul_pow2 a k Hk).
  rewrite <- Z.add_lor_land, land_low_bits by assumption. lia.
Qed.

Lemma lor_high_add hi lo k :
  0 <= k -> 0 <= lo < 2 ^ k -> hi mod 2 ^ k = 0 -> Z.lor hi lo = hi + lo.
Proof.
  intros Hk Hlo Hhi.
  assert (E : hi = Z.shiftl (hi / 2 ^ k) k).
  { rewrite Z.shiftl_mul_pow2 by assumption.
    pose proof (Z.div_mod hi (2 ^ k)). lia. }
  rewrite E at 1. rewrite lor_shiftl_add by assumption.
  pose proof (Z.div_mod hi (2 ^ k)). lia.
Qed.

Lemma land_mask a k : 0 <= k -> Z.land a (2 ^ k - 1) = a mod 2 ^ k.
Proof.
  intros Hk. rewrite <- Z.land_ones by assumption.
  f_equal. rewrite Z.ones_equiv. lia.
Qed.

Lemma land_7 x : Z.land x 7 = x mod 8.
Proof. apply (land_mask x 3). lia. Qed.

Lemma land_15 x : Z.land x 15 = x mod 16.
Proof. apply (land_mask x 4). lia. Qed.

Lemma land_31 x : Z.land x 31 = x mod 32.
Proof. apply (land_mask x 5). lia. Qed.

Lemma land_63 x : Z.land x 63 = x mod 64.
Proof. apply (land_mask x 6). lia. Qed.

Lemma land_255 x : Z.land x 255 = x mod 256.
Proof. apply (land_mask x 8). lia. Qed.

(** ** Hexadecimal digits *)

Lemma hexdigit_spec k :
  0 <= k < 16 ->
  hex_digit_value (hexdigit k) = Some k /\ is_lower_hex (hexdigit k) = true.
Proof.
  intros Hk.
  assert (H := range_forallb
    (fun k => match hex_digit_value (hexdigit k) with
              | Some v => (v =? k) && is_lower_hex (hexdigit k)
              | None => false
              end) 16 eq_refl k Hk).
  cbv beta in H.
  destruct (hex_digit_value (hexdigit k)); [|discriminate].
  apply andb_true_iff in H. destruct H as [H1 H2].
  apply Z.eqb_eq in H1. subst. auto.
Qed.

Lemma nibbles_of_byte x :
  is_byte x ->
  0 <= Z.shiftr x 4 < 16 /\ 0 <= Z.land x 15 < 16
  /\ 16 * Z.shiftr x 4 + Z.land x 15 = x.
Proof.
  intros Hx.
  assert (H := range_forallb
    (fun x => (0 <=? Z.shiftr x 4) && (Z.shiftr x 4 <? 16)
              && (0 <=? Z.land x 15) && (Z.land x 15 <? 16)
              && (16 * Z.shiftr x 4 + Z.land x 15 =? x)) 256 eq_refl x Hx).
  cbv beta in H.
  repeat (apply andb_true_iff in H; destruct H as [H ?]). lia.
Qed.

Lemma bytes_hex_length b : length (bytes_hex b) = (2 * length b)%nat.
Proof. induction b; simpl; lia. Qed.

Lemma bytes_hex_lower b :
  Forall is_byte b -> forallb is_lower_hex (bytes_hex b) = true.
Proof.
  induction 1 as [|x b Hx _ IH]; [reflexivity|].
  destruct (nibbles_of_byte x Hx) as (H1 & H2 & _).
  cbn [bytes_hex forallb].
  rewrite (proj2 (hexdigit_spec _ H1)), (proj2 (hexdigit_spec _ H2)), IH.
  reflexivity.
Qed.

Lemma bytes_fromhex_hex b :
  Forall is_byte b -> bytes_fromhex (bytes_hex b) = Some b.
Proof.
  induction 1 as [|x b Hx _ IH]; [reflexivity|].
  destruct (nibbles_of_byte x Hx) as (H1 & H2 & H3).
  cbn [bytes_hex bytes_fromhex].
  rewrite (proj1 (hexdigit_spec _ H1)), (proj1 (hexdigit_spec _ H2)), IH, H3.
  reflexivity.
Qed.

Lemma hex_value_from_app a d1 d2 :
  hex_value_from a (d1 ++ d2) =
  match hex_value_from a d1 with
  | Some v => hex_value_from v d2
  | None => None
  end.
Proof.
  revert a. induction d1 as [|c d1 IH]; intros a; cbn [app hex_value_from].
  - reflexivity.
  - destruct (hex_digit_value c); [apply IH|reflexivity].
Qed.

Lemma hexdigit_nonzero k : 0 < k < 16 -> hexdigit k <> 48.
Proof.
  intros Hk E.
  assert (H : hex_digit_value (hexdigit k) = Some k)
    by (apply hexdigit_spec; lia).
  rewrite E in H. cbv in H. injection H. lia.
Qed.

Lemma hex_digits_loop_spec fuel :
  forall n acc,
    0 <= n < 16 ^ Z.of_nat fuel -> (0 < fuel)%nat ->
    exists d,
      hex_digits_loop fuel n acc = d ++ acc
      /\ hex_value_from 0 d = Some n
      /\ d <> []
      /\ (n = 0 -> d = [48]) /\ (0 < n -> hd 48 d <> 48)
      /\ forallb is_lower_hex d = true.
Proof.
  induction fuel as [|f IH]; intros n acc Hn Hf; [lia|].
  cbn [hex_digits_loop].
  rewrite land_15, Z.shiftr_div_pow2 by lia. change (2 ^ 4) with 16.
  assert (Hm : 0 <= n mod 16 < 16) by (apply Z.mod_pos_bound; lia).
  destruct (hexdigit_spec _ Hm) as [Hv Hl].
  destruct (Z.eqb_spec (n / 16) 0) as [Hq|Hq].
  - assert (En : n mod 16 = n)
      by (pose proof (Z.div_mod n 16 ltac:(lia)); lia).
    exists [hexdigit (n mod 16)]. cbn [app hex_value_from forallb hd].
    rewrite Hv, Hl, En. repeat split; try reflexivity; try discriminate.
    + intros ->. reflexivity.
    + intros Hp. apply hexdigit_nonzero. lia.
  - assert (Hq' : 0 < n / 16).
    { pose proof (Z.div_pos n 16 ltac:(lia) ltac:(lia)). lia. }
    assert (Hf' : (0 < f)%nat).
    { destruct f; [|lia]. change (16 ^ Z.of_nat 1) with 16 in Hn.
      pose proof (Z.div_small n 16 ltac:(lia)). lia. }
    assert (Hb : 0 <= n / 16 < 16 ^ Z.of_nat f).
    { split; [lia|]. apply Z.div_lt_upper_bound; [lia|].
      replace (Z.of_nat (S f)) with (Z.succ (Z.of_nat f)) in Hn by lia.
      rewrite Z.pow_succ_r in Hn by lia. lia. }
    destruct (IH (n / 16) (hexdigit (n mod 16) :: acc) Hb Hf')
      as (d & E & V & Ne & _ & Hd & L).
    exists (d ++ [hexdigit (n mod 16)]).
    rewrite E, <- app_assoc. split; [reflexivity|].
    rewrite hex_value_from_app, V. cbn [hex_value_from]. rewrite Hv.
    rewrite forallb_app, L. cbn [forallb]. rewrite Hl.
    repeat split.
    + f_equal. pose proof (Z.div_mod n 16 ltac:(lia)). lia.
    + destruct d; discriminate.
    + intros ->. discriminate.
    + intros _. destruct d; [congruence|]. apply Hd. lia.
Qed.

Lemma hex_digits_spec n :
  0 <= n ->
  hex_value (hex_digits n) = Some n
  /\ no_leading_zero (hex_digits n)
  /\ forallb is_lower_hex (hex_digits n) = true.
Proof.
  intros Hn. unfold hex_digits.
  assert (Hb : 0 <= n < 16 ^ Z.of_nat (S (Z.to_nat (Z.log2 n)))).
  { split; [lia|].
    pose proof (Z.log2_nonneg n) as Hl.
    replace (Z.of_nat (S (Z.to_nat (Z.log2 n)))) with (Z.succ (Z.log2 n))
      by lia.
    destruct (Z.eq_dec n 0) as [->|Hnz].
    - cbv. reflexivity.
    - apply Z.lt_le_trans with (2 ^ Z.succ (Z.log2 n)).
      + apply Z.log2_spec. lia.
      + apply Z.pow_le_mono_l. lia. }
  destruct (hex_digits_loop_spec _ n [] Hb ltac:(lia))
    as (d & E & V & Ne & Hz & Hd & L).
  rewrite E, app_nil_r. repeat split.
  - unfold hex_value. destruct d; [congruence|exact V].
  - unfold no_leading_zero.
    destruct (Z.eq_dec n 0) as [->|Hnz]; [left; auto|right; apply Hd; lia].
  - exact L.
Qed.

(** ** UTF-8 *)

Lemma fmap_ext {A B} (f g : A -> B) r :
  (forall a, f a = g a) -> fmap f r = fmap g r.
Proof. intros H. destruct r; cbn; [reflexivity|f_equal; apply H]. Qed.

Lemma utf8_encoder_cons o p ch rest :
  is_code_point ch -> is_surrogate ch = false ->
  utf8_encoder o p (ch :: rest) =
  fmap (app (utf8_char ch)) (utf8_encoder o (S p) rest).
Proof.
  unfold is_code_point. intros Hc Hs.
  cbn [utf8_encoder]. rewrite Hs. unfold utf8_char.
  pose proof land_63 as E6.
  assert (S6 : Z.shiftr ch 6 = ch / 64) by (apply Z.shiftr_div_pow2; lia).
  assert (S12 : Z.shiftr ch 12 = ch / 4096)
    by (apply Z.shiftr_div_pow2; lia).
  assert (S18 : Z.shiftr ch 18 = ch / 262144)
    by (apply Z.shiftr_div_pow2; lia).
  assert (C : forall x, Z.lor 128 (x mod 64) = 128 + x mod 64).
  { intros x. apply (lor_high_add 128 _ 6); [lia| |reflexivity].
    apply Z.mod_pos_bound. lia. }
  rewrite !E6, S6, S12, S18, !C.
  destruct (Z.ltb_spec ch 128); [reflexivity|].
  destruct (Z.ltb_spec ch 2048).
  { rewrite (lor_high_add 192 (ch / 64) 6); [reflexivity|lia| |reflexivity].
    change (2 ^ 6) with 64. split.
    - apply Z.div_pos; lia.
    - apply Z.div_lt_upper_bound; lia. }
  destruct (Z.ltb_spec ch 65536).
  { rewrite (lor_high_add 224 (ch / 4096) 4); [reflexivity|lia| |reflexivity].
    change (2 ^ 4) with 16. split.
    - apply Z.div_pos; lia.
    - apply Z.div_lt_upper_bound; lia. }
  rewrite (lor_high_add 240 (ch / 262144) 3); [reflexivity|lia| |reflexivity].
  change (2 ^ 3) with 8. split.
  - apply Z.div_pos; lia.
  - apply Z.div_lt_upper_bound; lia.
Qed.

Lemma utf8_char_bytes ch :
  is_code_point ch -> Forall is_byte (utf8_char ch).
Proof.
  unfold is_code_point, utf8_char, is_byte. intros Hc.
  destruct (Z.ltb_spec ch 128); [repeat constructor; lia|].
  destruct (Z.ltb_spec ch 2048);
    [|destruct (Z.ltb_spec ch 65536)];
    repeat constructor; Z.div_mod_to_equations; lia.
Qed.

Lemma utf8_encoder_surrogate o p s b :
  utf8_encoder o p s = inr b -> no_surrogate s.
Proof.
  revert p b. induction s as [|ch rest IH]; intros p b H; [constructor|].
  cbn [utf8_encoder] in H.
  assert (Hs : is_surrogate ch = false).
  { destruct (is_surrogate ch) eqn:E; [|reflexivity].
    unfold is_surrogate in E. apply andb_true_iff in E.
    destruct E as [E1 E2]. apply Z.leb_le in E1.
    destruct (Z.ltb_spec ch 128); [lia|].
    destruct (Z.ltb_spec ch 2048); [lia|]. discriminate. }
  constructor; [exact Hs|]. rewrite Hs in H.
  repeat match type of H with
         | (if ?c then _ else _) = _ => destruct c
         end;
    (destruct (utf8_encoder o (S p) rest) eqn:E; [discriminate|];
     eapply IH; exact E).
Qed.

Lemma utf8_encoder_total o p s :
  no_surrogate s -> exists b, utf8_encoder o p s = inr b.
Proof.
  intros H. revert p. induction H as [|ch rest Hs _ IH]; intros p.
  - exists []. reflexivity.
  - destruct (IH (S p)) as [b E].
    cbn [utf8_encoder]. rewrite Hs, E. cbn [fmap].
    repeat match goal with
           | |- context [if ?c then _ else _] => destruct c
           end; eexists; reflexivity.
Qed.

(** A code point that is a surrogate stops the encoder. *)
Lemma utf8_encoder_fails o p s :
  is_text s -> ~ no_surrogate s ->
  exists start stop,
    utf8_encoder o p s =
    inl (UnicodeEncodeError (py "utf-8") o start stop
           (py "surrogates not allowed")).
Proof.
  intros Ht. revert p. induction Ht as [|ch rest Hc _ IH]; intros p Hn.
  - destruct Hn. constructor.
  - cbn [utf8_encoder]. destruct (is_surrogate ch) eqn:Hs.
    + unfold is_surrogate in Hs. apply andb_true_iff in Hs.
      destruct Hs as [E1 E2]. apply Z.leb_le in E1. apply Z.leb_le in E2.
      decide_tests. eauto.
    + destruct (IH (S p)) as (start & stop & E).
      { intros Hr. apply Hn. constructor; assumption. }
      rewrite E. cbn [fmap].
      repeat match goal with
             | |- context [if ?c then _ else _] => destruct c
             end; eauto.
Qed.

Lemma is_continuation_true b : 128 <= b < 192 -> is_continuation b = true.
Proof. intros H. unfold is_continuation. decide_tests. reflexivity. Qed.

Lemma utf8_decoder_1 o p b0 t :
  b0 < 128 ->
  utf8_decoder o p (b0 :: t) = fmap (cons b0) (utf8_decoder o (p + 1) t).
Proof. intros H. cbn [utf8_decoder]. decide_tests. reflexivity. Qed.

Lemma utf8_decoder_2 o p b0 b1 t :
  194 <= b0 < 224 -> 128 <= b1 < 192 ->
  utf8_decoder o p (b0 :: b1 :: t) =
  fmap (cons (b0 mod 32 * 64 + b1 mod 64)) (utf8_decoder o (p + 2) t).
Proof.
  intros H0 H1. cbn [utf8_decoder].
  rewrite (is_continuation_true b1 H1). decide_tests.
  apply fmap_ext. intros a. f_equal.
  rewrite land_31, land_63.
  rewrite lor_shiftl_add; [reflexivity|lia|].
  apply Z.mod_pos_bound. lia.
Qed.

Lemma utf8_decoder_3 o p b0 b1 b2 t :
  224 <= b0 < 240 -> 128 <= b1 < 192 -> 128 <= b2 < 192 ->
  (b0 = 224 -> 160 <= b1) -> (b0 = 237 -> b1 < 160) ->
  utf8_decoder o p (b0 :: b1 :: b2 :: t) =
  fmap (cons (b0 mod 16 * 4096 + (b1 mod 64 * 64 + b2 mod 64)))
       (utf8_decoder o (p + 3) t).
Proof.
  intros H0 H1 H2 Ho Hs. cbn [utf8_decoder].
  rewrite (is_continuation_true b1 H1), (is_continuation_true b2 H2).
  cbn [negb orb].
  replace (if b1 <? 160 then b0 =? 224 else b0 =? 237) with false.
  2:{ destruct (Z.ltb_spec b1 160); symmetry; apply Z.eqb_neq; lia. }
  decide_tests.
  apply fmap_ext. intros a. f_equal.
  rewrite land_15, !land_63.
  pose proof (Z.mod_pos_bound b1 64 ltac:(lia)).
  pose proof (Z.mod_pos_bound b2 64 ltac:(lia)).
  rewrite (lor_shiftl_add (b1 mod 64)) by (change (2 ^ 6) with 64; lia).
  rewrite lor_shiftl_add; [reflexivity|lia|].
  change (2 ^ 6) with 64. change (2 ^ 12) with 4096. lia.
Qed.

Lemma utf8_decoder_4 o p b0 b1 b2 b3 t :
  240 <= b0 <= 244 -> 128 <= b1 < 192 -> 128 <= b2 < 192 ->
  128 <= b3 < 192 ->
  (b0 = 240 -> 144 <= b1) -> (b0 = 244 -> b1 < 144) ->
  utf8_decoder o p (b0 :: b1 :: b2 :: b3 :: t) =
  fmap (cons (b0 mod 8 * 262144
              + (b1 mod 64 * 4096 + (b2 mod 64 * 64 + b3 mod 64))))
       (utf8_decoder o (p + 4) t).
Proof.
  intros H0 H1 H2 H3 Ho Hs. cbn [utf8_decoder].
  rewrite (is_continuation_true b1 H1), (is_continuation_true b2 H2),
    (is_continuation_true b3 H3).
  cbn [negb orb].
  replace (if b1 <? 144 then b0 =? 240 else b0 =? 244) with false.
  2:{ destruct (Z.ltb_spec b1 144); symmetry; apply Z.eqb_neq; lia. }
  decide_tests.
  apply fmap_ext. intros a. f_equal.
  rewrite land_7, !land_63.
  pose proof (Z.mod_pos_bound b1 64 ltac:(lia)).
  pose proof (Z.mod_pos_bound b2 64 ltac:(lia)).
  pose proof (Z.mod_pos_bound b3 64 ltac:(lia)).
  rewrite (lor_shiftl_add (b2 mod 64)) by (change (2 ^ 6) with 64; lia).
  rewrite (lor_shiftl_add (b1 mod 64)).
  2: lia.
  2:{ change (2 ^ 6) with 64. change (2 ^ 12) with 4096. lia. }
  rewrite lor_shiftl_add; [reflexivity|lia|].
  change (2 ^ 6) with 64. change (2 ^ 12) with 4096.
  change (2 ^ 18) with 262144. lia.
Qed.

(** Decoding the bytes of one code point gives it back. *)
Lemma utf8_decoder_char o p ch t :
  is_code_point ch -> is_surrogate ch = false ->
  exists p',
    utf8_decoder o p (utf8_char ch ++ t) =
    fmap (cons ch) (utf8_decoder o p' t).
Proof.
  unfold is_code_point, is_surrogate, utf8_char. intros Hc Hs.
  assert (Hs' : ch < 0xD800 \/ 0xDFFF < ch).
  { destruct (Z.leb_spec 0xD800 ch); [|lia].
    destruct (Z.leb_spec ch 0xDFFF); [discriminate|lia]. }
  clear Hs.
  destruct (Z.ltb_spec ch 128).
  { exists (p + 1)%nat. apply utf8_decoder_1. assumption. }
  destruct (Z.ltb_spec ch 2048).
  { exists (p + 2)%nat. cbn [app]. rewrite utf8_decoder_2.
    - apply fmap_ext. intros a. f_equal. Z.div_mod_to_equations. lia.
    - Z.div_mod_to_equations. lia.
    - Z.div_mod_to_equations. lia. }
  destruct (Z.ltb_spec ch 65536).
  { exists (p + 3)%nat. cbn [app]. rewrite utf8_decoder_3.
    - apply fmap_ext. intros a. f_equal. Z.div_mod_to_equations. lia.
    - Z.div_mod_to_equations. lia.
    - Z.div_mod_to_equations. lia.
    - Z.div_mod_to_equations. lia.
    - Z.div_mod_to_equations. lia.
    - Z.div_mod_to_equations. lia. }
  exists (p + 4)%nat. cbn [app]. rewrite utf8_decoder_4.
  - apply fmap_ext. intros a. f_equal. Z.div_mod_to_equations. lia.
  - Z.div_mod_to_equations. lia.
  - Z.div_mod_to_equations. lia.
  - Z.div_mod_to_equations. lia.
  - Z.div_mod_to_equations. lia.
  - Z.div_mod_to_equations. lia.
  - Z.div_mod_to_equations. lia.
Qed.

(** Strict decoding inverts strict encoding. *)
Lemma utf8_roundtrip s :
  is_text s -> no_surrogate s ->
  forall o p, exists b,
    utf8_encoder o p s = inr b /\ Forall is_byte b
    /\ forall o' p', utf8_decoder o' p' b = inr s.
Proof.
  intros Ht. induction Ht as [|ch rest Hc _ IH]; intros Hn o p.
  - exists []. repeat split; constructor.
  - inversion Hn as [|? ? Hs Hn']; subst.
    destruct (IH Hn' o (S p)) as (b & E & Hb & D).
    exists (utf8_char ch ++ b).
    rewrite utf8_encoder_cons, E by assumption. split; [reflexivity|].
    split.
    + apply Forall_app. split; [apply utf8_char_bytes|]; assumption.
    + intros o' p'.
      destruct (utf8_decoder_char o' p' ch b Hc Hs) as [q ->].
      rewrite D. reflexivity.
Qed.

(** Bytes below 0x80 decode to themselves. *)
Lemma utf8_decoder_ascii o p b :
  Forall (fun c => c < 128) b -> utf8_decoder o p b = inr b.
Proof.
  intros H. revert p. induction H as [|c b Hc _ IH]; intros p.
  - reflexivity.
  - rewrite utf8_decoder_1, IH by assumption. reflexivity.
Qed.

(** ** Base64 *)

Lemma land_3 x : Z.land x 3 = x mod 4.
Proof. apply (land_mask x 2). lia. Qed.

Lemma b64char_spec i :
  0 <= i < 64 ->
  b64value (b64char i) = Some i
  /\ (b64char i =? b64pad) = false
  /\ b64char i < 128.
Proof.
  intros Hi.
  assert (H := range_forallb
    (fun i => match b64value (b64char i) with
              | Some v => (v =? i) && negb (b64char i =? b64pad)
                          && (b64char i <? 128)
              | None => false
              end) 64 eq_refl i Hi).
  cbv beta in H.
  destruct (b64value (b64char i)); [|discriminate].
  apply andb_true_iff in H. destruct H as [H H3].
  apply andb_true_iff in H. destruct H as [H1 H2].
  apply Z.eqb_eq in H1. apply negb_true_iff in H2. apply Z.ltb_lt in H3.
  subst. auto.
Qed.

(** The four alphabet indices of a group of three bytes. *)
Lemma b64_indices x y z :
  is_byte x -> is_byte y -> is_byte z ->
  Z.shiftr x 2 = x / 4
  /\ Z.shiftl (Z.land x 3) 4 = x mod 4 * 16
  /\ Z.lor (Z.shiftl (Z.land x 3) 4) (Z.shiftr y 4) = x mod 4 * 16 + y / 16
  /\ Z.shiftl (Z.land y 15) 2 = y mod 16 * 4
  /\ Z.lor (Z.shiftl (Z.land y 15) 2) (Z.shiftr z 6) = y mod 16 * 4 + z / 64
  /\ Z.land z 63 = z mod 64.
Proof.
  unfold is_byte. intros Hx Hy Hz.
  rewrite land_3, land_15, land_63, !Z.shiftr_div_pow2 by lia.
  change (2 ^ 2) with 4. change (2 ^ 4) with 16. change (2 ^ 6) with 64.
  repeat split.
  - rewrite Z.shiftl_mul_pow2 by lia. reflexivity.
  - rewrite lor_shiftl_add; [reflexivity|lia|].
    change (2 ^ 4) with 16. Z.div_mod_to_equations. lia.
  - rewrite Z.shiftl_mul_pow2 by lia. reflexivity.
  - rewrite lor_shiftl_add; [reflexivity|lia|].
    change (2 ^ 2) with 4. Z.div_mod_to_equations. lia.
Qed.

(** The three bytes of a group of four alphabet indices. *)
Lemma b64_bytes v0 v1 v2 v3 :
  0 <= v1 < 64 -> 0 <= v2 < 64 -> 0 <= v3 < 64 ->
  Z.lor (Z.shiftl v0 2) (Z.shiftr v1 4) = v0 * 4 + v1 / 16
  /\ Z.lor (Z.shiftl (Z.land v1 15) 4) (Z.shiftr v2 2)
     = v1 mod 16 * 16 + v2 / 4
  /\ Z.lor (Z.shiftl (Z.land v2 3) 6) v3 = v2 mod 4 * 64 + v3.
Proof.
  intros H1 H2 H3.
  rewrite land_3, land_15, !Z.shiftr_div_pow2 by lia.
  change (2 ^ 2) with 4. change (2 ^ 4) with 16.
  repeat split.
  - rewrite lor_shiftl_add; [reflexivity|lia|].
    change (2 ^ 2) with 4. Z.div_mod_to_equations. lia.
  - rewrite lor_shiftl_add; [reflexivity|lia|].
    change (2 ^ 4) with 16. Z.div_mod_to_equations. lia.
  - rewrite lor_shiftl_add; [reflexivity|lia|].
    change (2 ^ 6) with 64. lia.
Qed.

Lemma list_ind3 {A} (P : list A -> Prop) :
  P [] -> (forall x, P [x]) -> (forall x y, P [x; y]) ->
  (forall x y z l, P l -> P (x :: y :: z :: l)) ->
  forall l, P l.
Proof.
  intros H0 H1 H2 H3 l.
  assert (H : P l /\ (forall x, P (x :: l)) /\ (forall x y, P (x :: y :: l))).
  { induction l as [|a l (Ha & Hb & Hc)]; auto. }
  apply H.
Qed.

Lemma b64encode_ascii b : Forall (fun c => c < 128) (b64encode b).
Proof.
  assert (H : forall i, b64char i < 128).
  { intros i. unfold b64char.
    destruct (nth_in_or_default (Z.to_nat i) b64alphabet 0) as [Hin| ->];
      [|lia].
    revert Hin. generalize (nth (Z.to_nat i) b64alphabet 0). intros c Hin.
    assert (Hall : forallb (fun c => c <? 128) b64alphabet = true)
      by reflexivity.
    rewrite forallb_forall in Hall. apply Z.ltb_lt. apply Hall. exact Hin. }
  induction b as [|x|x y|x y z l IH] using list_ind3; cbn [b64encode];
    repeat constructor; try apply H; try (unfold b64pad; lia); exact IH.
Qed.

(** Standard decoding inverts [b64encode]. *)
Lemma b64_roundtrip b :
  Forall is_byte b -> b64decode (b64encode b) = Some b.
Proof.
  induction b as [|x|x y|x y z l IH] using list_ind3; intros Hb.
  - reflexivity.
  - inversion Hb as [|? ? Hx _]; subst.
    destruct (b64_indices x 0 0 Hx) as (E0 & E1 & _);
      [unfold is_byte; lia..|].
    assert (R0 : 0 <= x / 4 < 64)
      by (unfold is_byte in Hx; Z.div_mod_to_equations; lia).
    assert (R1 : 0 <= x mod 4 * 16 < 64)
      by (Z.div_mod_to_equations; lia).
    cbn [b64encode b64decode]. rewrite E0, E1.
    destruct (b64char_spec _ R0) as (-> & _ & _).
    destruct (b64char_spec _ R1) as (-> & _ & _).
    rewrite Z.eqb_refl. cbn [andb].
    destruct (b64_bytes (x / 4) (x mod 4 * 16) 0 0) as (-> & _);
      try lia.
    do 2 f_equal. Z.div_mod_to_equations. lia.
  - inversion Hb as [|? ? Hx Hb']; subst.
    inversion Hb' as [|? ? Hy _]; subst.
    destruct (b64_indices x y 0 Hx Hy) as (E0 & _ & E1 & E2 & _);
      [unfold is_byte; lia|].
    unfold is_byte in Hx, Hy.
    assert (R0 : 0 <= x / 4 < 64) by (Z.div_mod_to_equations; lia).
    assert (R1 : 0 <= x mod 4 * 16 + y / 16 < 64)
      by (Z.div_mod_to_equations; lia).
    assert (R2 : 0 <= y mod 16 * 4 < 64) by (Z.div_mod_to_equations; lia).
    cbn [b64encode b64decode]. rewrite E0, E1, E2.
    destruct (b64char_spec _ R0) as (-> & _ & _).
    destruct (b64char_spec _ R1) as (-> & _ & _).
    destruct (b64char_spec _ R2) as (-> & -> & _).
    rewrite Z.eqb_refl. cbn [andb].
    destruct (b64_bytes (x / 4) (x mod 4 * 16 + y / 16) (y mod 16 * 4) 0)
      as (-> & -> & _); try lia.
    do 2 f_equal; [|f_equal]; Z.div_mod_to_equations; lia.
  - inversion Hb as [|? ? Hx Hb']; subst.
    inversion Hb' as [|? ? Hy Hb'']; subst.
    inversion Hb'' as [|? ? Hz Hl]; subst.
    destruct (b64_indices x y z Hx Hy Hz) as (E0 & _ & E1 & _ & E2 & E3).
    unfold is_byte in Hx, Hy, Hz.
    assert (R0 : 0 <= x / 4 < 64) by (Z.div_mod_to_equations; lia).
    assert (R1 : 0 <= x mod 4 * 16 + y / 16 < 64)
      by (Z.div_mod_to_equations; lia).
    assert (R2 : 0 <= y mod 16 * 4 + z / 64 < 64)
      by (Z.div_mod_to_equations; lia).
    assert (R3 : 0 <= z mod 64 < 64) by (Z.div_mod_to_equations; lia).
    cbn [b64encode b64decode]. rewrite E0, E1, E2, E3.
    destruct (b64char_spec _ R0) as (-> & _ & _).
    destruct (b64char_spec _ R1) as (-> & _ & _).
    destruct (b64char_spec _ R2) as (-> & _ & _).
    destruct (b64char_spec _ R3) as (-> & -> & _).
    cbn [andb]. rewrite (IH Hl).
    destruct (b64_bytes (x / 4) (x mod 4 * 16 + y / 16)
                (y mod 16 * 4 + z / 64) (z mod 64) R1 R2 R3)
      as (-> & -> & ->).
    do 2 f_equal; [|f_equal; [|f_equal]]; Z.div_mod_to_equations; lia.
Qed.

(** ** MD5 digests *)

Lemma le_bytes_length n w : length (le_bytes n w) = n.
Proof. unfold le_bytes. rewrite length_map, length_seq. reflexivity. Qed.

Lemma le_bytes_bytes n w : Forall is_byte (le_bytes n w).
Proof.
  unfold le_bytes. apply Forall_forall. intros x Hx.
  apply in_map_iff in Hx. destruct Hx as (i & <- & _).
  rewrite land_255. unfold is_byte. apply Z.mod_pos_bound. lia.
Qed.

Lemma md5_digest_length msg : length (md5_digest msg) = 16%nat.
Proof.
  unfold md5_digest. destruct (md5_blocks _ _ _).
  rewrite !length_app, !le_bytes_length. reflexivity.
Qed.

Lemma md5_digest_bytes msg : Forall is_byte (md5_digest msg).
Proof.
  unfold md5_digest. destruct (md5_blocks _ _ _).
  repeat (apply Forall_app; split); apply le_bytes_bytes.
Qed.

Lemma md5_hexdigest_form msg :
  length (md5_hexdigest msg) = 32%nat
  /\ forallb is_lower_hex (md5_hexdigest msg) = true.
Proof.
  unfold md5_hexdigest. split.
  - rewrite bytes_hex_length, md5_digest_length. reflexivity.
  - apply bytes_hex_lower, md5_digest_bytes.
Qed.

(** ** The converter on text *)

Lemma utf8_encoder_error o p s e :
  utf8_encoder o p s = inl e ->
  exists start stop,
    e = UnicodeEncodeError (py "utf-8") o start stop
          (py "surrogates not allowed").
Proof.
  revert p e. induction s as [|ch rest IH]; intros p e H; [discriminate|].
  cbn [utf8_encoder] in H.
  destruct (utf8_encoder o (S p) rest) as [e'|b] eqn:E.
  - specialize (IH (S p) e' E). cbn [fmap] in H.
    repeat match type of H with
           | (if ?c then _ else _) = _ => destruct c
           end; injection H as <-; eauto.
  - cbn [fmap] in H.
    repeat match type of H with
           | (if ?c then _ else _) = _ => destruct c
           end; try discriminate; injection H as <-; eauto.
Qed.

Lemma str_encode_error s e :
  str_encode_utf8 s = inl e -> is_ValueError e = true.
Proof.
  intros H. apply utf8_encoder_error in H. destruct H as (? & ? & ->).
  reflexivity.
Qed.

Lemma to_hex_str_ok s b :
  str_encode_utf8 s = inr b -> to_hex (VStr s) = ret (bytes_hex b).
Proof. intros H. unfold to_hex. rewrite H. reflexivity. Qed.

Lemma to_base64_str_ok s b :
  str_encode_utf8 s = inr b -> to_base64 (VStr s) = ret (b64encode b).
Proof.
  intros H. unfold to_base64. rewrite H. cbn [lift bind ret].
  unfold bytes_decode_utf8.
  rewrite utf8_decoder_ascii by apply b64encode_ascii. reflexivity.
Qed.

Lemma to_md5_str_ok s b :
  str_encode_utf8 s = inr b -> to_md5 (VStr s) = ret (md5_hexdigest b).
Proof. intros H. unfold to_md5. rewrite H. reflexivity. Qed.

Lemma to_hex_str_error s e :
  str_encode_utf8 s = inl e ->
  to_hex (VStr s) =
  ([LogError (py "Error converting to hex: " ++ exn_str e)], inl e).
Proof.
  intros H. unfold to_hex. rewrite H.
  cbn [lift bind try_except]. rewrite (str_encode_error s e H). reflexivity.
Qed.

Lemma to_base64_str_error s e :
  str_encode_utf8 s = inl e ->
  to_base64 (VStr s) =
  ([LogError (py "Error converting to base64: " ++ exn_str e)], inl e).
Proof.
  intros H. unfold to_base64. rewrite H.
  cbn [lift bind try_except]. rewrite (str_encode_error s e H). reflexivity.
Qed.

Lemma to_md5_str_error s e :
  str_encode_utf8 s = inl e ->
  to_md5 (VStr s) =
  ([LogException
      (py "Unexpected error during MD5 hash generation: " ++ exn_str e) e],
   inl e).
Proof. intros H. unfold to_md5. rewrite H. reflexivity. Qed.

Lemma random_choice_methods randbelow :
  randbelow_ok randbelow ->
  exists m, random_choice randbelow methods = inr m /\ In m methods.
Proof.
  intros H. unfold random_choice.
  change (length methods) with 3%nat.
  destruct (nth_error methods (randbelow 3%nat)) as [m|] eqn:E.
  - exists m. split; [reflexivity|]. eapply nth_error_In. exact E.
  - apply nth_error_None in E. specialize (H 3%nat ltac:(lia)).
    change (length methods) with 3%nat in E. lia.
Qed.

Lemma methods_on_text m s :
  In m methods -> quiet_or_value_error (method_call m (VStr s)).
Proof.
  intros Hin. unfold quiet_or_value_error.
  destruct (str_encode_utf8 s) as [e|b] eqn:E.
  - right. pose proof (str_encode_error s e E) as Hv.
    destruct Hin as [<-|[<-|[<-|[]]]]; cbn [method_call].
    + rewrite (to_hex_str_error s e E). eexists _, _. repeat split. exact Hv.
    + rewrite (to_base64_str_error s e E). eexists _, _. repeat split.
      exact Hv.
    + rewrite (to_md5_str_error s e E). eexists _, _. repeat split.
      exact Hv.
  - left. destruct Hin as [<-|[<-|[<-|[]]]]; cbn [method_call].
    + rewrite (to_hex_str_ok s b E). eauto.
    + rewrite (to_base64_str_ok s b E). eauto.
    + rewrite (to_md5_str_ok s b E). eauto.
Qed.

Lemma outcome_try_reraise {A} (m : M A) (h : exn -> event) :
  outcome (try_except m (fun e => emit (h e) ;;; raise e)) = outcome m.
Proof. destruct m as [l [e|a]]; reflexivity. Qed.

Lemma randomly_convert_chosen randbelow s m :
  random_choice randbelow methods = inr m ->
  randomly_convert randbelow (VStr s) =
  try_except (method_call m (VStr s))
    (fun e =>
       emit (LogError (py "Error during random conversion using "
                       ++ method_name m ++ py ": " ++ exn_str e)) ;;;
       raise e).
Proof.
  intros E. unfold randomly_convert. rewrite E. unfold lift, bind.
  destruct (try_except _ _). reflexivity.
Qed.

Lemma randomly_convert_on_text randbelow s :
  randbelow_ok randbelow ->
  quiet_or_value_error (randomly_convert randbelow (VStr s)).
Proof.
  intros Hr. destruct (random_choice_methods randbelow Hr) as (m & E & Hin).
  rewrite (randomly_convert_chosen randbelow s m E).
  destruct (methods_on_text m s Hin) as [[r ->]|(e & l & -> & Hv & Hp)].
  - left. exists r. reflexivity.
  - right. eexists e, (l ++ [_]). split; [reflexivity|]. split; [exact Hv|].
    unfold printed in *. rewrite filter_app, Hp. reflexivity.
Qed.

Lemma str_encode_text s b :
  is_text s -> str_encode_utf8 s = inr b ->
  Forall is_byte b /\ bytes_decode_utf8 b = inr s.
Proof.
  intros Ht E.
  pose proof (utf8_encoder_surrogate _ _ _ _ E) as Hn.
  destruct (utf8_roundtrip s Ht Hn s 0%nat) as (b' & E' & Hb & D).
  unfold str_encode_utf8 in E. rewrite E in E'. injection E' as <-.
  split; [exact Hb|apply D].
Qed.

(** A text with a surrogate makes all three methods raise the same
    [UnicodeEncodeError]. *)
Lemma text_with_surrogate_raises s :
  is_text s -> ~ no_surrogate s ->
  exists e,
    is_ValueError e = true
    /\ outcome (to_hex (VStr s)) = inl e
    /\ outcome (to_base64 (VStr s)) = inl e
    /\ outcome (to_md5 (VStr s)) = inl e.
Proof.
  intros Ht Hn.
  destruct (utf8_encoder_fails s 0%nat s Ht Hn) as (start & stop & E).
  eexists. split; [|split; [|split]].
  2: rewrite (to_hex_str_error s _ E); reflexivity.
  2: rewrite (to_base64_str_error s _ E); reflexivity.
  2: rewrite (to_md5_str_error s _ E); reflexivity.
  reflexivity.
Qed.

(** * The properties of the specification *)

(** ** Hexadecimal form of an integer *)

(** C1, counterexample: [hex] of the integer -42 is [-0x2a]; the sign comes
    first, so the result does not start with [0x]. *)
Lemma to_hex_negative_int_not_0x_prefixed :
  outcome (to_hex (VInt (-42))) = inr (py "-0x2a")
  /\ ~ (exists d, outcome (to_hex (VInt (-42))) = inr (py "0x" ++ d)).
Proof.
  split; [reflexivity|].
  intros [d H]. vm_compute in H. discriminate.
Qed.

(** C1, as amended: for every integer [n], [hex(n)] returns, without
    logging, the lowercase hexadecimal numeral of the magnitude of [n] (no
    leading zero, value [|n|]) prefixed with [0x] when [n] is not negative
    and with [-0x] when it is. *)
Theorem to_hex_int_standard_form (n : Z) :
  exists d,
    hex_value d = Some (Z.abs n)
    /\ no_leading_zero d
    /\ forallb is_lower_hex d = true
    /\ to_hex (VInt n) = ret ((if n <? 0 then py "-0x" else py "0x") ++ d).
Proof.
  unfold to_hex, py_hex. cbn [try_except ret].
  destruct (Z.ltb_spec n 0) as [Hn|Hn].
  - exists (hex_digits (- n)).
    destruct (hex_digits_spec (- n)) as (V & L & H); [lia|].
    replace (Z.abs n) with (- n) by lia. auto.
  - exists (hex_digits n).
    destruct (hex_digits_spec n Hn) as (V & L & H).
    replace (Z.abs n) with n by lia. auto.
Qed.

(** ** Hexadecimal form of a text *)

(** C3, counterexample: the text made of the lone surrogate U+DC80 has no
    UTF-8 bytes; [hex] raises [UnicodeEncodeError] on it and returns no
    string. *)
Lemma to_hex_lone_surrogate_raises :
  is_text [0xDC80]
  /\ ~ (exists h, outcome (to_hex (VStr [0xDC80])) = inr h).
Proof.
  split.
  - repeat constructor; unfold is_code_point; lia.
  - intros (h & H). vm_compute in H. discriminate.
Qed.

(** C3, as amended: for every text [s] without surrogate code points,
    [hex(s)] returns the rendering of the UTF-8 bytes [b] of [s] (bytes
    that decode back to [s]) with two lowercase hexadecimal digits per
    byte and nothing else: twice the length of [b], digits only, read back
    pairwise it is [b].  In particular [hex("abc")] is [616263]. *)
Theorem to_hex_str_utf8_bytes :
  (forall s,
      is_text s -> no_surrogate s ->
      exists b,
        str_encode_utf8 s = inr b
        /\ Forall is_byte b
        /\ bytes_decode_utf8 b = inr s
        /\ to_hex (VStr s) = ret (bytes_hex b)
        /\ length (bytes_hex b) = (2 * length b)%nat
        /\ forallb is_lower_hex (bytes_hex b) = true
        /\ bytes_fromhex (bytes_hex b) = Some b)
  /\ to_hex (VStr (py "abc")) = ret (py "616263").
Proof.
  split; [|reflexivity].
  intros s Ht Hn.
  destruct (utf8_roundtrip s Ht Hn s 0%nat) as (b & E & Hb & D).
  exists b. split; [exact E|]. split; [exact Hb|]. split; [apply D|].
  split; [apply to_hex_str_ok; exact E|].
  split; [apply bytes_hex_length|].
  split; [apply bytes_hex_lower; exact Hb|].
  apply bytes_fromhex_hex. exact Hb.
Qed.

Lemma to_hex_str_utf8_bytes_witness :
  is_text [104; 233; 8364; 128512]
  /\ no_surrogate [104; 233; 8364; 128512]
  /\ exists b,
       str_encode_utf8 [104; 233; 8364; 128512] = inr b
       /\ Forall is_byte b
       /\ bytes_decode_utf8 b = inr [104; 233; 8364; 128512]
       /\ to_hex (VStr [104; 233; 8364; 128512]) = ret (bytes_hex b)
       /\ length (bytes_hex b) = (2 * length b)%nat
       /\ forallb is_lower_hex (bytes_hex b) = true
       /\ bytes_fromhex (bytes_hex b) = Some b.
Proof.
  assert (Ht : is_text [104; 233; 8364; 128512])
    by (repeat constructor; unfold is_code_point; lia).
  assert (Hn : no_surrogate [104; 233; 8364; 128512])
    by (repeat constructor).
  split; [exact Ht|]. split; [exact Hn|].
  exact (proj1 to_hex_str_utf8_bytes _ Ht Hn).
Defined.

(** ** Base64 round trip *)

(** C2, counterexample: the one-character text made of the lone surrogate
    U+DC80 has no UTF-8 encoding; [base64] raises on it and there is nothing
    to decode. *)
Lemma to_base64_lone_surrogate_no_roundtrip :
  is_text [0xDC80]
  /\ ~ (exists r b,
          outcome (to_base64 (VStr [0xDC80])) = inr r
          /\ b64decode r = Some b
          /\ bytes_decode_utf8 b = inr [0xDC80]).
Proof.
  split.
  - repeat constructor; unfold is_code_point; lia.
  - intros (r & b & H & _). vm_compute in H. discriminate.
Qed.

(** C2, as amended: for every text [s] without surrogate code points,
    [base64(s)] returns a string [r]; standard base64 decoding of [r] gives
    bytes whose strict UTF-8 decoding is [s]. *)
Theorem base64_roundtrip_encodable (s : pystr) :
  is_text s -> no_surrogate s ->
  exists r b,
    to_base64 (VStr s) = ret r
    /\ b64decode r = Some b
    /\ bytes_decode_utf8 b = inr s.
Proof.
  intros Ht Hn.
  destruct (utf8_roundtrip s Ht Hn s 0%nat) as (b & E & Hb & D).
  exists (b64encode b), b. repeat split.
  - apply to_base64_str_ok. exact E.
  - apply b64_roundtrip. exact Hb.
  - apply D.
Qed.

Lemma base64_roundtrip_encodable_witness :
  is_text [104; 233; 8364; 128512]
  /\ no_surrogate [104; 233; 8364; 128512]
  /\ exists r b,
       to_base64 (VStr [104; 233; 8364; 128512]) = ret r
       /\ b64decode r = Some b
       /\ bytes_decode_utf8 b = inr [104; 233; 8364; 128512].
Proof.
  assert (Ht : is_text [104; 233; 8364; 128512])
    by (repeat constructor; unfold is_code_point; lia).
  assert (Hn : no_surrogate [104; 233; 8364; 128512])
    by (repeat constructor).
  split; [exact Ht|]. split; [exact Hn|].
  exact (base64_roundtrip_encodable _ Ht Hn).
Defined.

(** ** MD5 digest *)

(** C4, counterexample: on the text made of the lone surrogate U+DC80,
    [md5] raises [UnicodeEncodeError] and returns no string. *)
Lemma to_md5_lone_surrogate_raises :
  is_text [0xDC80]
  /\ ~ (exists h,
          outcome (to_md5 (VStr [0xDC80])) = inr h
          /\ length h = 32%nat
          /\ forallb is_lower_hex h = true).
Proof.
  split.
  - repeat constructor; unfold is_code_point; lia.
  - intros (h & H & _). vm_compute in H. discriminate.
Qed.

(** C4, as amended: for every text [s] without surrogate code points,
    [md5(s)] returns a string of 32 lowercase hexadecimal digits; on every
    input two calls of [md5] have the same result; and [md5("abc")] is
    [900150983cd24fb0d6963f7d28e17f72]. *)
Theorem to_md5_hexdigest_form :
  (forall s,
      no_surrogate s ->
      exists h,
        to_md5 (VStr s) = ret h
        /\ length h = 32%nat
        /\ forallb is_lower_hex h = true)
  /\ (forall data r1 r2, to_md5 data = r1 -> to_md5 data = r2 -> r1 = r2)
  /\ to_md5 (VStr (py "abc")) = ret (py "900150983cd24fb0d6963f7d28e17f72").
Proof.
  split; [|split].
  - intros s Hn.
    destruct (utf8_encoder_total s 0%nat s Hn) as [b E].
    exists (md5_hexdigest b).
    destruct (md5_hexdigest_form b) as [L H].
    split; [apply to_md5_str_ok; exact E|]. split; assumption.
  - intros data r1 r2 <- <-. reflexivity.
  - vm_compute. reflexivity.
Qed.

Lemma to_md5_hexdigest_form_witness :
  no_surrogate (py "message digest")
  /\ exists h,
       to_md5 (VStr (py "message digest")) = ret h
       /\ length h = 32%nat
       /\ forallb is_lower_hex h = true.
Proof.
  assert (Hn : no_surrogate (py "message digest")) by (repeat constructor).
  split; [exact Hn|].
  exact (proj1 to_md5_hexdigest_form _ Hn).
Defined.

(** ** Random choice *)

(** C5, counterexample: on the text made of the lone surrogate U+DC80,
    [randomChoice] returns no value, whichever of the three indices the
    random source draws. *)
Lemma randomly_convert_lone_surrogate_returns_nothing :
  is_text [0xDC80]
  /\ ~ (exists v,
          outcome (randomly_convert (fun _ => 0%nat) (VStr [0xDC80])) = inr v)
  /\ ~ (exists v,
          outcome (randomly_convert (fun _ => 1%nat) (VStr [0xDC80])) = inr v)
  /\ ~ (exists v,
          outcome (randomly_convert (fun _ => 2%nat) (VStr [0xDC80])) = inr v).
Proof.
  split; [repeat constructor; unfold is_code_point; lia|].
  repeat split; intros (v & H); vm_compute in H; discriminate.
Qed.

(** C5, as amended: for every text [s] without surrogate code points and
    every index the random source draws, [randomChoice(s)] returns a value,
    and that value is the one [hex(s)], [base64(s)] or [md5(s)] returns;
    on any text, a value [randomChoice] returns is the value one of the
    three returns, never one outside that set. *)
Theorem randomly_convert_in_three :
  (forall randbelow s,
      no_surrogate s -> randbelow_ok randbelow ->
      exists v,
        randomly_convert randbelow (VStr s) = ret v
        /\ (to_hex (VStr s) = ret v
            \/ to_base64 (VStr s) = ret v
            \/ to_md5 (VStr s) = ret v))
  /\ (forall randbelow s v,
         randbelow_ok randbelow ->
         outcome (randomly_convert randbelow (VStr s)) = inr v ->
         outcome (to_hex (VStr s)) = inr v
         \/ outcome (to_base64 (VStr s)) = inr v
         \/ outcome (to_md5 (VStr s)) = inr v).
Proof.
  split.
  - intros randbelow s Hn Hr.
    destruct (utf8_encoder_total s 0%nat s Hn) as [b E].
    pose proof (to_hex_str_ok s b E) as H1.
    pose proof (to_base64_str_ok s b E) as H2.
    pose proof (to_md5_str_ok s b E) as H3.
    destruct (random_choice_methods randbelow Hr) as (m & Em & Hin).
    rewrite (randomly_convert_chosen randbelow s m Em).
    destruct Hin as [<-|[<-|[<-|[]]]]; cbn [method_call].
    + exists (bytes_hex b). rewrite H1. auto.
    + exists (b64encode b). rewrite H2. auto.
    + exists (md5_hexdigest b). rewrite H3. auto.
  - intros randbelow s v Hr.
    destruct (random_choice_methods randbelow Hr) as (m & E & Hin).
    rewrite (randomly_convert_chosen randbelow s m E), outcome_try_reraise.
    destruct Hin as [<-|[<-|[<-|[]]]]; cbn [method_call]; auto.
Qed.

Lemma draw_last_ok : randbelow_ok draw_last.
Proof. intros n Hn. unfold draw_last. lia. Qed.

Lemma randomly_convert_in_three_witness :
  no_surrogate (py "abc") /\ randbelow_ok draw_last
  /\ exists v,
       randomly_convert draw_last (VStr (py "abc")) = ret v
       /\ (to_hex (VStr (py "abc")) = ret v
           \/ to_base64 (VStr (py "abc")) = ret v
           \/ to_md5 (VStr (py "abc")) = ret v).
Proof.
  assert (Hn : no_surrogate (py "abc")) by (repeat constructor).
  split; [exact Hn|]. split; [exact draw_last_ok|].
  exact (proj1 randomly_convert_in_three draw_last (py "abc") Hn
               draw_last_ok).
Defined.

(** ** Inputs that are not text *)

(** C6: on every input that is not a [str], each of [base64], [md5] and
    [randomChoice] raises [TypeError("Input must be a string.")] and does
    nothing else, whatever the random source. *)
Theorem non_text_raises_type_error (randbelow : nat -> nat) (data : value) :
  isinstance_str data = false ->
  to_base64 data = raise (TypeError (py "Input must be a string."))
  /\ to_md5 data = raise (TypeError (py "Input must be a string."))
  /\ randomly_convert randbelow data
     = raise (TypeError (py "Input must be a string.")).
Proof.
  intros H. destruct data; try discriminate; repeat split.
Qed.

Lemma non_text_raises_type_error_witness :
  isinstance_str (VInt 42) = false
  /\ to_base64 (VInt 42) = raise (TypeError (py "Input must be a string."))
  /\ to_md5 (VInt 42) = raise (TypeError (py "Input must be a string."))
  /\ randomly_convert draw_last (VInt 42)
     = raise (TypeError (py "Input must be a string.")).
Proof.
  split; [reflexivity|].
  exact (non_text_raises_type_error draw_last (VInt 42) eq_refl).
Defined.

(** ** The command line *)

Lemma is_ValueError_not_TypeError e :
  is_ValueError e = true -> is_TypeError e = false.
Proof. destruct e; (discriminate || reflexivity). Qed.

Lemma convert_on_text isspace todecimal maxdigits randbelow args :
  randbelow_ok randbelow ->
  quiet_or_value_error (convert isspace todecimal maxdigits randbelow args).
Proof.
  intros Hr. unfold convert.
  destruct (pystr_eqb (args_method args) (py "hex")).
  { destruct (parse_int isspace todecimal maxdigits (args_data args))
      as [n|].
    - left. exists (py_hex n). reflexivity.
    - apply (methods_on_text (Method (py "to_hex") to_hex)).
      cbn. auto. }
  destruct (pystr_eqb (args_method args) (py "base64")).
  { apply (methods_on_text (Method (py "to_base64") to_base64)).
    cbn. auto. }
  destruct (pystr_eqb (args_method args) (py "md5")).
  { apply (methods_on_text (Method (py "to_md5") to_md5)). cbn. auto. }
  apply randomly_convert_on_text. exact Hr.
Qed.

Lemma main_success isspace todecimal maxdigits randbelow args r :
  convert isspace todecimal maxdigits randbelow args = ret r ->
  main isspace todecimal maxdigits randbelow args
  = ([Stdout (py "Converted data: " ++ r)], 0).
Proof. intros E. unfold main. rewrite E. reflexivity. Qed.

Lemma main_value_error isspace todecimal maxdigits randbelow args l e :
  convert isspace todecimal maxdigits randbelow args = (l, inl e) ->
  is_ValueError e = true ->
  main isspace todecimal maxdigits randbelow args
  = (l ++ [LogError (py "Value error: " ++ exn_str e);
           Stderr (py "Error: " ++ exn_str e)], 1).
Proof.
  intros E Hv. unfold main. rewrite E. cbn [bind].
  rewrite (is_ValueError_not_TypeError e Hv), Hv. reflexivity.
Qed.

(** C7: with method [hex] the positional argument is first read as an
    integer; when [int] accepts it the integer goes to [hex] and the program
    prints its hexadecimal form, when [int] raises [ValueError] the text
    itself goes to [hex], unchanged.  The argument [42] prints
    [Converted data: 0x2a].  This holds for every Unicode table, digit
    limit and random source. *)
Theorem main_hex_tries_int_first isspace todecimal maxdigits randbelow :
  (forall data n,
      parse_int isspace todecimal maxdigits data = Some n ->
      convert isspace todecimal maxdigits randbelow (Args data (py "hex"))
      = to_hex (VInt n)
      /\ main isspace todecimal maxdigits randbelow (Args data (py "hex"))
         = ([Stdout (py "Converted data: " ++ py_hex n)], 0))
  /\ (forall data,
         parse_int isspace todecimal maxdigits data = None ->
         convert isspace todecimal maxdigits randbelow (Args data (py "hex"))
         = to_hex (VStr data))
  /\ parse_int isspace todecimal maxdigits (py "42") = Some 42
  /\ main isspace todecimal maxdigits randbelow (Args (py "42") (py "hex"))
     = ([Stdout (py "Converted data: 0x2a")], 0).
Proof.
  split; [|split; [|split]].
  - intros data n E. split.
    + unfold convert. cbn [args_method args_data]. rewrite E. reflexivity.
    + apply main_success. unfold convert.
      cbn [args_method args_data]. rewrite E. reflexivity.
  - intros data E. unfold convert. cbn [args_method args_data].
    rewrite E. reflexivity.
  - reflexivity.
  - reflexivity.
Qed.

(** An interpreter whose Unicode tables know no white space and no digit
    outside ASCII. *)
Lemma main_hex_tries_int_first_witness :
  parse_int (fun _ => false) (fun _ => None) 4300 (py " -4_2 ") = Some (-42)
  /\ parse_int (fun _ => false) (fun _ => None) 4300 (py "0x2a") = None
  /\ main (fun _ => false) (fun _ => None) 4300 draw_last
          (Args (py " -4_2 ") (py "hex"))
     = ([Stdout (py "Converted data: -0x2a")], 0)
  /\ convert (fun _ => false) (fun _ => None) 4300 draw_last
             (Args (py "0x2a") (py "hex"))
     = to_hex (VStr (py "0x2a")).
Proof.
  assert (E1 : parse_int (fun _ => false) (fun _ => None) 4300 (py " -4_2 ")
               = Some (-42)) by reflexivity.
  assert (E2 : parse_int (fun _ => false) (fun _ => None) 4300 (py "0x2a")
               = None) by reflexivity.
  split; [exact E1|]. split; [exact E2|]. split.
  - exact (proj2 (proj1 (main_hex_tries_int_first
                           (fun _ => false) (fun _ => None) 4300 draw_last)
                        _ _ E1)).
  - exact (proj1 (proj2 (main_hex_tries_int_first
                           (fun _ => false) (fun _ => None) 4300 draw_last))
                 _ E2).
Defined.



(** ** Uniform choice *)

Lemma randomly_convert_selected randbelow s name f :
  In (Method name f) methods ->
  selected (randbelow 3%nat) = Some name ->
  outcome (randomly_convert randbelow (VStr s)) = outcome (f (VStr s)).
Proof.
  intros Hin Hs.
  assert (E : random_choice randbelow methods = inr (Method name f)).
  { unfold selected, random_choice in *.
    change (length methods) with 3%nat in *.
    destruct Hin as [H|[H|[H|[]]]]; injection H as <- <-;
      destruct (randbelow 3%nat) as [|[|[|[|k]]]]; cbn in Hs |- *;
      first [reflexivity | discriminate]. }
  rewrite (randomly_convert_chosen randbelow s _ E), outcome_try_reraise.
  reflexivity.
Qed.

(** C9: when the index [random.choice] draws is uniform on the three
    positions of the list (the contract of the random source), each of
    [to_hex], [to_base64] and [to_md5] is selected with probability 1/3,
    and the outcome of [randomChoice] on a text is the outcome of the
    selected method on that text. *)
Theorem random_choice_uniform (pmf : nat -> Q) :
  uniform_below 3 pmf ->
  (probability 3 pmf (selects (py "to_hex")) == 1 # 3)%Q
  /\ (probability 3 pmf (selects (py "to_base64")) == 1 # 3)%Q
  /\ (probability 3 pmf (selects (py "to_md5")) == 1 # 3)%Q
  /\ forall randbelow s,
       (selected (randbelow 3%nat) = Some (py "to_hex") ->
        outcome (randomly_convert randbelow (VStr s))
        = outcome (to_hex (VStr s)))
       /\ (selected (randbelow 3%nat) = Some (py "to_base64") ->
           outcome (randomly_convert randbelow (VStr s))
           = outcome (to_base64 (VStr s)))
       /\ (selected (randbelow 3%nat) = Some (py "to_md5") ->
           outcome (randomly_convert randbelow (VStr s))
           = outcome (to_md5 (VStr s)))
       /\ (randbelow_ok randbelow ->
           selected (randbelow 3%nat) = Some (py "to_hex")
           \/ selected (randbelow 3%nat) = Some (py "to_base64")
           \/ selected (randbelow 3%nat) = Some (py "to_md5")).
Proof.
  intros Hu.
  pose proof (Hu 0%nat ltac:(lia)) as H0.
  pose proof (Hu 1%nat ltac:(lia)) as H1.
  pose proof (Hu 2%nat ltac:(lia)) as H2.
  change (Pos.of_nat 3) with 3%positive in H0, H1, H2.
  split; [|split; [|split]].
  - change (probability 3 pmf (selects (py "to_hex")))
      with (pmf 0%nat + (0 + (0 + 0)))%Q.
    rewrite H0. reflexivity.
  - change (probability 3 pmf (selects (py "to_base64")))
      with (0 + (pmf 1%nat + (0 + 0)))%Q.
    rewrite H1. reflexivity.
  - change (probability 3 pmf (selects (py "to_md5")))
      with (0 + (0 + (pmf 2%nat + 0)))%Q.
    rewrite H2. reflexivity.
  - intros randbelow s. split; [|split; [|split]].
    + apply randomly_convert_selected. cbn. auto.
    + apply randomly_convert_selected. cbn. auto.
    + apply randomly_convert_selected. cbn. auto.
    + intros Hr. specialize (Hr 3%nat ltac:(lia)).
      destruct (randbelow 3%nat) as [|[|[|k]]]; [auto..|lia].
Qed.

Lemma random_choice_uniform_witness :
  uniform_below 3 (fun _ => 1 # 3)
  /\ (probability 3 (fun _ => 1 # 3) (selects (py "to_hex")) == 1 # 3)%Q
  /\ (probability 3 (fun _ => 1 # 3) (selects (py "to_base64")) == 1 # 3)%Q
  /\ (probability 3 (fun _ => 1 # 3) (selects (py "to_md5")) == 1 # 3)%Q
  /\ selected (draw_last 3) = Some (py "to_md5")
  /\ outcome (randomly_convert draw_last (VStr (py "abc")))
     = outcome (to_md5 (VStr (py "abc"))).
Proof.
  assert (Hu : uniform_below 3 (fun _ => 1 # 3)).
  { intros k Hk. reflexivity. }
  assert (Hs : selected (draw_last 3) = Some (py "to_md5")) by reflexivity.
  split; [exact Hu|].
  destruct (random_choice_uniform (fun _ => 1 # 3) Hu) as (P1 & P2 & P3 & A).
  split; [exact P1|]. split; [exact P2|]. split; [exact P3|].
  split; [exact Hs|].
  exact (proj1 (proj2 (proj2 (A draw_last (py "abc")))) Hs).
Defined.

(** ** Failures on text *)

(** C10, counterexample: the text made of the lone surrogate U+DC80 makes
    [hex], [base64] and [md5] raise [UnicodeEncodeError], and
    [randomChoice] with them. *)
Lemma text_with_lone_surrogate_fails :
  is_text [0xDC80]
  /\ outcome (to_hex (VStr [0xDC80]))
     = inl (UnicodeEncodeError (py "utf-8") [0xDC80] 0 1
              (py "surrogates not allowed"))
  /\ outcome (to_base64 (VStr [0xDC80]))
     = inl (UnicodeEncodeError (py "utf-8") [0xDC80] 0 1
              (py "surrogates not allowed"))
  /\ outcome (to_md5 (VStr [0xDC80]))
     = inl (UnicodeEncodeError (py "utf-8") [0xDC80] 0 1
              (py "surrogates not allowed"))
  /\ outcome (randomly_convert draw_last (VStr [0xDC80]))
     = inl (UnicodeEncodeError (py "utf-8") [0xDC80] 0 1
              (py "surrogates not allowed")).
Proof.
  split; [repeat constructor; unfold is_code_point; lia|].
  repeat split.
Qed.

(** C10, as amended: for every text [s] without surrogate code points, the
    empty text included, each of [hex], [base64] and [md5] returns without
    raising or logging, and so does [randomChoice(s)] whichever method the
    random source selects. *)
Theorem encodable_text_never_fails (randbelow : nat -> nat) (s : pystr) :
  no_surrogate s -> randbelow_ok randbelow ->
  (exists r, to_hex (VStr s) = ret r)
  /\ (exists r, to_base64 (VStr s) = ret r)
  /\ (exists r, to_md5 (VStr s) = ret r)
  /\ (exists r, randomly_convert randbelow (VStr s) = ret r).
Proof.
  intros Hn Hr.
  destruct (utf8_encoder_total s 0%nat s Hn) as [b E].
  pose proof (to_hex_str_ok s b E) as H1.
  pose proof (to_base64_str_ok s b E) as H2.
  pose proof (to_md5_str_ok s b E) as H3.
  repeat split; eauto.
  destruct (random_choice_methods randbelow Hr) as (m & Em & Hin).
  rewrite (randomly_convert_chosen randbelow s m Em).
  destruct Hin as [<-|[<-|[<-|[]]]]; cbn [method_call];
    rewrite ?H1, ?H2, ?H3; eexists; reflexivity.
Qed.

Lemma encodable_text_never_fails_witness :
  no_surrogate [] /\ randbelow_ok draw_last
  /\ (exists r, to_hex (VStr []) = ret r)
  /\ (exists r, to_base64 (VStr []) = ret r)
  /\ (exists r, to_md5 (VStr []) = ret r)
  /\ (exists r, randomly_convert draw_last (VStr []) = ret r).
Proof.
  split; [constructor|]. split; [exact draw_last_ok|].
  exact (encodable_text_never_fails draw_last []
           (Forall_nil _) draw_last_ok).
Defined.

(** * Further properties of the converter *)

(** ** What a method returns or raises on a text *)

Lemma to_hex_str_inv s r :
  outcome (to_hex (VStr s)) = inr r ->
  exists b, str_encode_utf8 s = inr b /\ r = bytes_hex b.
Proof.
  destruct (str_encode_utf8 s) as [e|b] eqn:E; intros H.
  - rewrite (to_hex_str_error s e E) in H. discriminate.
  - rewrite (to_hex_str_ok s b E) in H. injection H as <-. eauto.
Qed.

Lemma to_base64_str_inv s r :
  outcome (to_base64 (VStr s)) = inr r ->
  exists b, str_encode_utf8 s = inr b /\ r = b64encode b.
Proof.
  destruct (str_encode_utf8 s) as [e|b] eqn:E; intros H.
  - rewrite (to_base64_str_error s e E) in H. discriminate.
  - rewrite (to_base64_str_ok s b E) in H. injection H as <-. eauto.
Qed.

Lemma method_raises_encode_error m s e :
  In m methods -> outcome (method_call m (VStr s)) = inl e ->
  str_encode_utf8 s = inl e.
Proof.
  intros Hin H. destruct (str_encode_utf8 s) as [e'|b] eqn:E.
  - destruct Hin as [<-|[<-|[<-|[]]]]; cbn [method_call] in H.
    + rewrite (to_hex_str_error s e' E) in H. exact H.
    + rewrite (to_base64_str_error s e' E) in H. exact H.
    + rewrite (to_md5_str_error s e' E) in H. exact H.
  - destruct Hin as [<-|[<-|[<-|[]]]]; cbn [method_call] in H.
    + rewrite (to_hex_str_ok s b E) in H. discriminate.
    + rewrite (to_base64_str_ok s b E) in H. discriminate.
    + rewrite (to_md5_str_ok s b E) in H. discriminate.
Qed.

(** ** Kinds of input of [to_hex] *)

(** X1: [to_hex] raises [TypeError] exactly on the inputs that are neither
    [int] (or [bool]) nor [str]; the exception is raised inside the [try],
    so it is logged by [logging.exception] as an unexpected error before it
    is raised again. *)
Theorem to_hex_type_error_iff (data : value) :
  (isinstance_int data = false /\ isinstance_str data = false ->
   to_hex data
   = ([LogException
         (py "Unexpected error during hex conversion: Input must be an integer or string.")
         (TypeError (py "Input must be an integer or string."))],
      inl (TypeError (py "Input must be an integer or string."))))
  /\ (forall e,
         outcome (to_hex data) = inl e -> is_TypeError e = true ->
         isinstance_int data = false /\ isinstance_str data = false).
Proof.
  split.
  - intros [Hi Hs]. destruct data; try discriminate; reflexivity.
  - intros e H Ht. destruct data; try (split; reflexivity);
      try discriminate.
    destruct (str_encode_utf8 s) as [e'|b] eqn:E.
    + rewrite (to_hex_str_error s e' E) in H. injection H as <-.
      pose proof (str_encode_error s e' E) as Hv.
      rewrite (is_ValueError_not_TypeError e' Hv) in Ht. discriminate.
    + rewrite (to_hex_str_ok s b E) in H. discriminate.
Qed.

Lemma to_hex_type_error_iff_witness :
  (isinstance_int VNone = false /\ isinstance_str VNone = false)
  /\ to_hex VNone
     = ([LogException
           (py "Unexpected error during hex conversion: Input must be an integer or string.")
           (TypeError (py "Input must be an integer or string."))],
        inl (TypeError (py "Input must be an integer or string."))).
Proof.
  split; [split; reflexivity|].
  exact (proj1 (to_hex_type_error_iff VNone) (conj eq_refl eq_refl)).
Defined.

(** ** Reversibility of [hex] *)

Lemma hex_value_digits_inj n m :
  0 <= n -> 0 <= m -> hex_digits n = hex_digits m -> n = m.
Proof.
  intros Hn Hm E.
  destruct (hex_digits_spec n Hn) as (Vn & _).
  destruct (hex_digits_spec m Hm) as (Vm & _).
  rewrite E in Vn. congruence.
Qed.

(** X2: [hex] is injective on the integers: two integers with the same
    output are equal, so the integer can be read back from the output. *)
Theorem to_hex_int_injective (n m : Z) :
  outcome (to_hex (VInt n)) = outcome (to_hex (VInt m)) -> n = m.
Proof.
  unfold to_hex, py_hex. cbn [try_except ret outcome snd].
  intros H. injection H as H.
  destruct (Z.ltb_spec n 0) as [Hn|Hn], (Z.ltb_spec m 0) as [Hm|Hm];
    cbn [py app] in H.
  - injection H as H.
    apply hex_value_digits_inj in H; lia.
  - discriminate.
  - discriminate.
  - injection H as H. apply hex_value_digits_inj in H; lia.
Qed.

Lemma to_hex_int_injective_witness :
  outcome (to_hex (VInt (-255))) = outcome (to_hex (VInt (-(256 - 1))))
  /\ -255 = -(256 - 1).
Proof.
  assert (H : outcome (to_hex (VInt (-255)))
              = outcome (to_hex (VInt (-(256 - 1))))) by reflexivity.
  split; [exact H|].
  exact (to_hex_int_injective (-255) (-(256 - 1)) H).
Defined.

Lemma py_hex_not_all_digits n : forallb is_lower_hex (py_hex n) = false.
Proof. unfold py_hex. destruct (n <? 0); reflexivity. Qed.

(** X3: the integer path and the text path of [hex] never give the same
    output: the output for an integer contains [x], the output for a text
    contains hexadecimal digits only. *)
Theorem to_hex_int_text_disjoint (n : Z) (s : pystr) :
  is_text s ->
  outcome (to_hex (VInt n)) <> outcome (to_hex (VStr s)).
Proof.
  intros Ht H. symmetry in H.
  change (outcome (to_hex (VInt n))) with (@inr exn pystr (py_hex n)) in H.
  destruct (to_hex_str_inv s _ H) as (b & E & Hb).
  destruct (str_encode_text s b Ht E) as [Hbytes _].
  pose proof (bytes_hex_lower b Hbytes) as L.
  rewrite <- Hb, py_hex_not_all_digits in L. discriminate.
Qed.

Lemma to_hex_int_text_disjoint_witness :
  is_text (py "42")
  /\ outcome (to_hex (VInt 42)) <> outcome (to_hex (VStr (py "42"))).
Proof.
  assert (Ht : is_text (py "42"))
    by (repeat constructor; unfold is_code_point; lia).
  split; [exact Ht|].
  exact (to_hex_int_text_disjoint 42 (py "42") Ht).
Defined.

Lemma bytes_hex_inj b1 b2 :
  Forall is_byte b1 -> Forall is_byte b2 ->
  bytes_hex b1 = bytes_hex b2 -> b1 = b2.
Proof.
  intros H1 H2 E.
  pose proof (bytes_fromhex_hex b1 H1) as F1.
  pose proof (bytes_fromhex_hex b2 H2) as F2.
  rewrite E in F1. congruence.
Qed.

Lemma b64encode_inj b1 b2 :
  Forall is_byte b1 -> Forall is_byte b2 ->
  b64encode b1 = b64encode b2 -> b1 = b2.
Proof.
  intros H1 H2 E.
  pose proof (b64_roundtrip b1 H1) as F1.
  pose proof (b64_roundtrip b2 H2) as F2.
  rewrite E in F1. congruence.
Qed.

(** X4: [hex] and [base64] hide nothing: two texts on which [hex] returns
    the same string are the same text, and likewise for [base64]. *)
Theorem hex_base64_injective_on_text (s1 s2 r : pystr) :
  is_text s1 -> is_text s2 ->
  (outcome (to_hex (VStr s1)) = inr r ->
   outcome (to_hex (VStr s2)) = inr r -> s1 = s2)
  /\ (outcome (to_base64 (VStr s1)) = inr r ->
      outcome (to_base64 (VStr s2)) = inr r -> s1 = s2).
Proof.
  intros Ht1 Ht2. split; intros H1 H2.
  - destruct (to_hex_str_inv s1 r H1) as (b1 & E1 & R1).
    destruct (to_hex_str_inv s2 r H2) as (b2 & E2 & R2).
    destruct (str_encode_text s1 b1 Ht1 E1) as [B1 D1].
    destruct (str_encode_text s2 b2 Ht2 E2) as [B2 D2].
    assert (b1 = b2) by (apply bytes_hex_inj; congruence).
    subst. congruence.
  - destruct (to_base64_str_inv s1 r H1) as (b1 & E1 & R1).
    destruct (to_base64_str_inv s2 r H2) as (b2 & E2 & R2).
    destruct (str_encode_text s1 b1 Ht1 E1) as [B1 D1].
    destruct (str_encode_text s2 b2 Ht2 E2) as [B2 D2].
    assert (b1 = b2) by (apply b64encode_inj; congruence).
    subst. congruence.
Qed.

Lemma hex_base64_injective_on_text_witness :
  is_text [233] /\ is_text [230 + 3]
  /\ outcome (to_hex (VStr [233])) = inr (py "c3a9")
  /\ outcome (to_hex (VStr [230 + 3])) = inr (py "c3a9")
  /\ outcome (to_base64 (VStr [233])) = inr (py "w6k=")
  /\ outcome (to_base64 (VStr [230 + 3])) = inr (py "w6k=")
  /\ [233] = [230 + 3].
Proof.
  assert (Ht : is_text [233])
    by (repeat constructor; unfold is_code_point; lia).
  assert (Ht' : is_text [230 + 3])
    by (repeat constructor; unfold is_code_point; lia).
  assert (E : [233] = [230 + 3]).
  { exact (proj1 (hex_base64_injective_on_text [233] [230 + 3] (py "c3a9")
                    Ht Ht') eq_refl eq_refl). }
  assert (E' : [233] = [230 + 3]).
  { exact (proj2 (hex_base64_injective_on_text [233] [230 + 3] (py "w6k=")
                    Ht Ht') eq_refl eq_refl). }
  repeat split; try reflexivity; assumption.
Defined.

(** ** Shape of the [base64] output *)

Lemma b64char_in_alphabet i :
  0 <= i < 64 -> in_b64alphabet (b64char i) = true.
Proof.
  intros Hi.
  exact (range_forallb (fun i => in_b64alphabet (b64char i)) 64 eq_refl i Hi).
Qed.

Lemma b64encode_length b :
  length (b64encode b) = (4 * ((length b + 2) / 3))%nat.
Proof.
  induction b as [|x|x y|x y z l IH] using list_ind3;
    try reflexivity.
  cbn [b64encode length]. rewrite IH.
  replace (S (S (S (length l))) + 2)%nat with (length l + 2 + 1 * 3)%nat
    by lia.
  rewrite Nat.div_add by lia. lia.
Qed.

Lemma b64encode_symbols b :
  Forall is_byte b -> forallb b64_symbol (b64encode b) = true.
Proof.
  assert (A : forall i, 0 <= i < 64 -> b64_symbol (b64char i) = true).
  { intros i Hi. unfold b64_symbol. rewrite b64char_in_alphabet by exact Hi.
    reflexivity. }
  induction b as [|x|x y|x y z l IH] using list_ind3; intros Hb.
  - reflexivity.
  - inversion Hb as [|? ? Hx _]; subst.
    destruct (b64_indices x 0 0 Hx) as (E0 & E1 & _);
      [unfold is_byte; lia..|].
    unfold is_byte in Hx.
    cbn [b64encode forallb]. rewrite E0, E1, !A; [reflexivity|..];
      Z.div_mod_to_equations; lia.
  - inversion Hb as [|? ? Hx Hb']; subst.
    inversion Hb' as [|? ? Hy _]; subst.
    destruct (b64_indices x y 0 Hx Hy) as (E0 & _ & E1 & E2 & _);
      [unfold is_byte; lia|].
    unfold is_byte in Hx, Hy.
    cbn [b64encode forallb]. rewrite E0, E1, E2, !A; [reflexivity|..];
      Z.div_mod_to_equations; lia.
  - inversion Hb as [|? ? Hx Hb']; subst.
    inversion Hb' as [|? ? Hy Hb'']; subst.
    inversion Hb'' as [|? ? Hz Hl]; subst.
    destruct (b64_indices x y z Hx Hy Hz) as (E0 & _ & E1 & _ & E2 & E3).
    unfold is_byte in Hx, Hy, Hz.
    cbn [b64encode forallb]. rewrite E0, E1, E2, E3, (IH Hl), !A;
      [reflexivity|..]; Z.div_mod_to_equations; lia.
Qed.

Lemma b64encode_padding b :
  Forall is_byte b ->
  length (filter (Z.eqb b64pad) (b64encode b))
  = ((3 - length b mod 3) mod 3)%nat.
Proof.
  assert (A : forall i, 0 <= i < 64 -> (b64pad =? b64char i) = false).
  { intros i Hi. rewrite Z.eqb_sym. apply b64char_spec. exact Hi. }
  induction b as [|x|x y|x y z l IH] using list_ind3; intros Hb.
  - reflexivity.
  - inversion Hb as [|? ? Hx _]; subst.
    destruct (b64_indices x 0 0 Hx) as (E0 & E1 & _);
      [unfold is_byte; lia..|].
    unfold is_byte in Hx.
    cbn [b64encode filter]. rewrite E0, E1, !A; [reflexivity|..];
      Z.div_mod_to_equations; lia.
  - inversion Hb as [|? ? Hx Hb']; subst.
    inversion Hb' as [|? ? Hy _]; subst.
    destruct (b64_indices x y 0 Hx Hy) as (E0 & _ & E1 & E2 & _);
      [unfold is_byte; lia|].
    unfold is_byte in Hx, Hy.
    cbn [b64encode filter]. rewrite E0, E1, E2, !A; [reflexivity|..];
      Z.div_mod_to_equations; lia.
  - inversion Hb as [|? ? Hx Hb']; subst.
    inversion Hb' as [|? ? Hy Hb'']; subst.
    inversion Hb'' as [|? ? Hz Hl]; subst.
    destruct (b64_indices x y z Hx Hy Hz) as (E0 & _ & E1 & _ & E2 & E3).
    unfold is_byte in Hx, Hy, Hz.
    cbn [b64encode filter]. rewrite E0, E1, E2, E3, !A;
      [|Z.div_mod_to_equations; lia..].
    rewrite (IH Hl). cbn [length].
    replace (S (S (S (length l)))) with (length l + 1 * 3)%nat by lia.
    rewrite Nat.Div0.mod_add. reflexivity.
Qed.

(** X5: on a text without surrogates whose UTF-8 encoding has [n] bytes,
    [base64] returns [4 * ceil(n / 3)] characters, each of them one of the
    64 characters of the alphabet or [=], with as many [=] as bytes are
    missing from the last group of three. *)
Theorem to_base64_shape (s : pystr) :
  is_text s -> no_surrogate s ->
  exists r b,
    to_base64 (VStr s) = ret r
    /\ str_encode_utf8 s = inr b
    /\ length r = (4 * ((length b + 2) / 3))%nat
    /\ forallb b64_symbol r = true
    /\ length (filter (Z.eqb b64pad) r) = ((3 - length b mod 3) mod 3)%nat.
Proof.
  intros Ht Hn.
  destruct (utf8_roundtrip s Ht Hn s 0%nat) as (b & E & Hb & _).
  exists (b64encode b), b. split; [apply to_base64_str_ok; exact E|].
  split; [exact E|]. split; [apply b64encode_length|].
  split; [apply b64encode_symbols; exact Hb|].
  apply b64encode_padding. exact Hb.
Qed.

Lemma to_base64_shape_witness :
  is_text (py "abcd") /\ no_surrogate (py "abcd")
  /\ exists r b,
       to_base64 (VStr (py "abcd")) = ret r
       /\ str_encode_utf8 (py "abcd") = inr b
       /\ length r = (4 * ((length b + 2) / 3))%nat
       /\ forallb b64_symbol r = true
       /\ length (filter (Z.eqb b64pad) r)
          = ((3 - length b mod 3) mod 3)%nat.
Proof.
  assert (Ht : is_text (py "abcd"))
    by (repeat constructor; unfold is_code_point; lia).
  assert (Hn : no_surrogate (py "abcd")) by (repeat constructor).
  split; [exact Ht|]. split; [exact Hn|].
  exact (to_base64_shape (py "abcd") Ht Hn).
Defined.

(** ** Length of the [hex] output on a text *)

Lemma utf8_char_length ch :
  (1 <= length (utf8_char ch) <= 4)%nat.
Proof.
  unfold utf8_char.
  repeat match goal with
         | |- context [if ?c then _ else _] => destruct c
         end; cbn [length]; lia.
Qed.

Lemma utf8_encoder_length s :
  is_text s -> no_surrogate s ->
  forall o p b,
    utf8_encoder o p s = inr b ->
    (length s <= length b <= 4 * length s)%nat.
Proof.
  intros Ht. induction Ht as [|ch rest Hc _ IH]; intros Hn o p b E.
  - injection E as <-. cbn. lia.
  - inversion Hn as [|? ? Hs Hn']; subst.
    rewrite utf8_encoder_cons in E by assumption.
    destruct (utf8_encoder o (S p) rest) as [e|b'] eqn:E'; [discriminate|].
    injection E as <-. specialize (IH Hn' o (S p) b' E').
    pose proof (utf8_char_length ch).
    rewrite length_app. cbn [length]. lia.
Qed.

Lemma utf8_encoder_ascii o p s :
  Forall (fun c => 0 <= c < 128) s -> utf8_encoder o p s = inr s.
Proof.
  intros H. revert p. induction H as [|c s Hc _ IH]; intros p.
  - reflexivity.
  - cbn [utf8_encoder]. rewrite IH. decide_tests. reflexivity.
Qed.

(** X6: on a text of [n] code points without surrogates, [hex] returns
    between [2 * n] and [8 * n] characters; on an ASCII text it returns
    exactly two digits per character, those of the character codes. *)
Theorem to_hex_str_length (s : pystr) :
  (is_text s -> no_surrogate s ->
   exists r,
     to_hex (VStr s) = ret r
     /\ (2 * length s <= length r <= 8 * length s)%nat)
  /\ (Forall (fun c => 0 <= c < 128) s ->
      to_hex (VStr s) = ret (bytes_hex s)
      /\ length (bytes_hex s) = (2 * length s)%nat).
Proof.
  split.
  - intros Ht Hn.
    destruct (utf8_encoder_total s 0%nat s Hn) as [b E].
    exists (bytes_hex b). split; [apply to_hex_str_ok; exact E|].
    pose proof (utf8_encoder_length s Ht Hn s 0%nat b E).
    rewrite bytes_hex_length. lia.
  - intros Ha. split; [|apply bytes_hex_length].
    apply to_hex_str_ok. apply utf8_encoder_ascii. exact Ha.
Qed.

Lemma to_hex_str_length_witness :
  is_text [104; 233; 8364; 128512] /\ no_surrogate [104; 233; 8364; 128512]
  /\ exists r,
       to_hex (VStr [104; 233; 8364; 128512]) = ret r
       /\ (2 * 4 <= length r <= 8 * 4)%nat.
Proof.
  assert (Ht : is_text [104; 233; 8364; 128512])
    by (repeat constructor; unfold is_code_point; lia).
  assert (Hn : no_surrogate [104; 233; 8364; 128512])
    by (repeat constructor).
  split; [exact Ht|]. split; [exact Hn|].
  exact (proj1 (to_hex_str_length [104; 233; 8364; 128512]) Ht Hn).
Defined.

(** ** The integer reading of the [hex] method *)

(** The two matches on literal characters of [py_int], as tests. *)
Lemma py_int_unfold isspace todecimal maxdigits s :
  py_int isspace todecimal maxdigits s =
  let buffer :=
    if forallb (fun ch => ch <? 128) s then s
    else transform_decimal_and_space isspace todecimal s in
  let str := skip_spaces buffer in
  let sign :=
    match str with c :: _ => if c =? 45 then -1 else 1 | [] => 1 end in
  let body :=
    match str with
    | c :: r => if (c =? 43) || (c =? 45) then r else str
    | [] => []
    end in
  if match body with c :: _ => c =? 95 | [] => false end then None
  else
    match scan_digits 0 0 0 body with
    | None => None
    | Some (digits, acc, rest) =>
        if (digits =? 0)%nat then None
        else if exceeds_digit_limit maxdigits digits then None
        else match skip_spaces rest with
             | [] => Some (sign * acc)
             | _ :: _ => None
             end
    end.
Proof.
  assert (H95 : forall (A : Type) (str : pystr) (x : A) (y : A),
             match str with 95 :: _ => x | _ => y end
             = if match str with c :: _ => c =? 95 | [] => false end
               then x else y).
  { intros A str x y. destruct str as [|c r]; [reflexivity|].
    destruct (Z.eqb_spec c 95) as [->|N]; [reflexivity|].
    destruct c as [|q|q]; try reflexivity.
    do 7 (try (destruct q as [q|q|]; try reflexivity; try congruence)). }
  unfold py_int. cbv zeta.
  destruct (skip_spaces _) as [|c r]; [reflexivity|].
  destruct (Z.eqb_spec c 43) as [->|N1]; [cbn [orb]; apply H95|].
  destruct (Z.eqb_spec c 45) as [->|N2]; [cbn [orb]; apply H95|].
  cbn [orb]. clear H95.
  destruct c as [|q|q]; try reflexivity.
  do 7 (try (destruct q as [q|q|]; try reflexivity; try congruence)).
Qed.

Lemma ascii_digit_range c : is_ascii_digit c = true -> 48 <= c <= 57.
Proof.
  unfold is_ascii_digit. intros H. apply andb_true_iff in H.
  destruct H as [H1 H2]. apply Z.leb_le in H1. apply Z.leb_le in H2. lia.
Qed.

Lemma scan_digits_numeral ds :
  forall prev n acc,
    forallb is_ascii_digit ds = true -> (prev =? 95) = false ->
    scan_digits prev n acc ds
    = Some ((n + length ds)%nat,
            fold_left (fun a c => 10 * a + (c - 48)) ds acc, []).
Proof.
  induction ds as [|c ds IH]; intros prev n acc Hd Hp.
  - cbn [scan_digits length fold_left]. rewrite Hp, Nat.add_0_r.
    reflexivity.
  - cbn [forallb] in Hd. apply andb_true_iff in Hd. destruct Hd as [Hc Hd].
    cbn [scan_digits length fold_left]. rewrite Hc.
    rewrite IH; [|exact Hd|].
    + replace (S n + length ds)%nat with (n + S (length ds))%nat by lia.
      reflexivity.
    + apply ascii_digit_range in Hc. apply Z.eqb_neq. lia.
Qed.

Lemma digits_below_128 ds :
  forallb is_ascii_digit ds = true -> forallb (fun ch => ch <? 128) ds = true.
Proof.
  induction ds as [|c ds IH]; [reflexivity|].
  cbn [forallb]. intros H. apply andb_true_iff in H. destruct H as [Hc Hd].
  apply ascii_digit_range in Hc. rewrite (IH Hd).
  replace (c <? 128) with true by (symmetry; apply Z.ltb_lt; lia).
  reflexivity.
Qed.

(** [int] on an optional sign followed by ASCII digits. *)
Lemma py_int_numeral isspace todecimal maxdigits ds :
  ds <> [] -> forallb is_ascii_digit ds = true -> (length ds <= 640)%nat ->
  py_int isspace todecimal maxdigits ds = Some (dec_value ds)
  /\ py_int isspace todecimal maxdigits (43 :: ds) = Some (dec_value ds)
  /\ py_int isspace todecimal maxdigits (45 :: ds) = Some (- dec_value ds).
Proof.
  intros Hne Hd Hlen.
  pose proof (digits_below_128 ds Hd) as Ha.
  destruct ds as [|c ds']; [congruence|].
  assert (Hc : 48 <= c <= 57).
  { cbn [forallb] in Hd. apply andb_true_iff in Hd.
    apply ascii_digit_range. apply Hd. }
  assert (Hscan : scan_digits 0 0 0 (c :: ds')
                  = Some (length (c :: ds'), dec_value (c :: ds'), []))
    by (apply (scan_digits_numeral (c :: ds') 0 0%nat 0 Hd); reflexivity).
  assert (Hlim : exceeds_digit_limit maxdigits (length (c :: ds')) = false).
  { unfold exceeds_digit_limit.
    replace (640 <? length (c :: ds'))%nat with false; [reflexivity|].
    symmetry. apply Nat.ltb_ge. exact Hlen. }
  assert (Hsp : Py_ISSPACE c = false).
  { unfold Py_ISSPACE. decide_tests. reflexivity. }
  assert (T43 : (c =? 43) = false) by (apply Z.eqb_neq; lia).
  assert (T45 : (c =? 45) = false) by (apply Z.eqb_neq; lia).
  assert (T95 : (c =? 95) = false) by (apply Z.eqb_neq; lia).
  assert (Ha' : forall x, (x <? 128) = true ->
                forallb (fun ch => ch <? 128) (x :: c :: ds') = true).
  { intros x Hx. cbn [forallb] in *. rewrite Hx. exact Ha. }
  repeat split; rewrite py_int_unfold; cbv zeta.
  - rewrite Ha. cbn [skip_spaces]. rewrite Hsp, T43, T45. cbn [orb].
    rewrite T95, Hscan, Hlim. cbn [length Nat.eqb skip_spaces].
    first [reflexivity | f_equal; lia].
  - rewrite (Ha' 43 eq_refl). cbn [skip_spaces].
    change (Py_ISSPACE 43) with false. cbv iota.
    change (43 =? 43) with true. change (43 =? 45) with false. cbn [orb].
    rewrite T95, Hscan, Hlim. cbn [length Nat.eqb skip_spaces].
    first [reflexivity | f_equal; lia].
  - rewrite (Ha' 45 eq_refl). cbn [skip_spaces].
    change (Py_ISSPACE 45) with false. cbv iota.
    change (45 =? 43) with false. change (45 =? 45) with true. cbn [orb].
    rewrite T95, Hscan, Hlim. cbn [length Nat.eqb skip_spaces].
    first [reflexivity | f_equal; lia].
Qed.

(** X7: with method [hex], an argument made of at most 640 ASCII decimal
    digits, with or without a sign in front, is always read as the integer
    it denotes (leading zeros included): the run prints the hexadecimal
    form of that integer, never the hexadecimal form of the characters. *)
Theorem main_hex_decimal_numeral
        isspace todecimal maxdigits randbelow (ds : pystr) :
  ds <> [] -> forallb is_ascii_digit ds = true -> (length ds <= 640)%nat ->
  main isspace todecimal maxdigits randbelow (Args ds (py "hex"))
  = ([Stdout (py "Converted data: " ++ py_hex (dec_value ds))], 0)
  /\ main isspace todecimal maxdigits randbelow (Args (43 :: ds) (py "hex"))
     = ([Stdout (py "Converted data: " ++ py_hex (dec_value ds))], 0)
  /\ main isspace todecimal maxdigits randbelow (Args (45 :: ds) (py "hex"))
     = ([Stdout (py "Converted data: " ++ py_hex (- dec_value ds))], 0).
Proof.
  intros Hne Hd Hlen.
  destruct (py_int_numeral isspace todecimal maxdigits ds Hne Hd Hlen)
    as (E0 & E1 & E2).
  repeat split; apply main_success; unfold convert, parse_int;
    cbn [args_method args_data pystr_eqb py];
    change (pystr_eqb (py "hex") (py "hex")) with true; cbv iota.
  - rewrite E0. reflexivity.
  - rewrite E1. reflexivity.
  - rewrite E2. reflexivity.
Qed.

Lemma main_hex_decimal_numeral_witness :
  py "007" <> [] /\ forallb is_ascii_digit (py "007") = true
  /\ (length (py "007") <= 640)%nat
  /\ main (fun _ => false) (fun _ => None) 4300 draw_last
          (Args (py "007") (py "hex"))
     = ([Stdout (py "Converted data: 0x7")], 0)
  /\ main (fun _ => false) (fun _ => None) 4300 draw_last
          (Args (py "+007") (py "hex"))
     = ([Stdout (py "Converted data: 0x7")], 0)
  /\ main (fun _ => false) (fun _ => None) 4300 draw_last
          (Args (py "-007") (py "hex"))
     = ([Stdout (py "Converted data: -0x7")], 0).
Proof.
  assert (Hne : py "007" <> []) by discriminate.
  assert (Hd : forallb is_ascii_digit (py "007") = true) by reflexivity.
  assert (Hl : (length (py "007") <= 640)%nat) by (cbn; lia).
  split; [exact Hne|]. split; [exact Hd|]. split; [exact Hl|].
  exact (main_hex_decimal_numeral (fun _ => false) (fun _ => None) 4300
           draw_last (py "007") Hne Hd Hl).
Defined.

Lemma scan_digits_chars s :
  forall prev d acc d' acc' rest,
    scan_digits prev d acc s = Some (d', acc', rest) ->
    Forall (fun c => int_char c = true) rest ->
    Forall (fun c => int_char c = true) s.
Proof.
  induction s as [|c s IH]; intros prev d acc d' acc' rest H Hr.
  - constructor.
  - cbn [scan_digits] in H.
    destruct (is_ascii_digit c) eqn:Hd.
    { constructor; [unfold int_char; rewrite Hd; reflexivity|].
      eapply IH; eassumption. }
    destruct (Z.eqb_spec c 95) as [->|N].
    { constructor; [reflexivity|].
      destruct (prev =? 95); [discriminate|]. eapply IH; eassumption. }
    destruct (prev =? 95); [discriminate|].
    injection H as _ _ <-. exact Hr.
Qed.

Lemma skip_spaces_nil s :
  skip_spaces s = [] -> Forall (fun c => int_char c = true) s.
Proof.
  induction s as [|c s IH]; intros H; [constructor|].
  cbn [skip_spaces] in H. destruct (Py_ISSPACE c) eqn:E; [|discriminate].
  constructor; [|apply IH; exact H].
  unfold int_char. rewrite E. apply orb_true_r.
Qed.

Lemma skip_spaces_chars s :
  Forall (fun c => int_char c = true) (skip_spaces s) ->
  Forall (fun c => int_char c = true) s.
Proof.
  induction s as [|c s IH]; intros H; [constructor|].
  cbn [skip_spaces] in H. destruct (Py_ISSPACE c) eqn:E; [|exact H].
  constructor; [|apply IH; exact H].
  unfold int_char. rewrite E. apply orb_true_r.
Qed.

Lemma transform_chars isspace todecimal s :
  Forall (fun c => int_char c = true)
         (transform_decimal_and_space isspace todecimal s) ->
  Forall (fun c => c < 127 -> int_char c = true) s.
Proof.
  induction s as [|ch s IH]; intros H; [constructor|].
  cbn [transform_decimal_and_space] in H.
  destruct (Z.ltb_spec ch 127) as [Hlt|Hge].
  - inversion H; subst. constructor; auto.
  - destruct (isspace ch).
    + inversion H; subst. constructor; [lia|auto].
    + destruct (todecimal ch).
      * inversion H; subst. constructor; [lia|auto].
      * inversion H as [|? ? H63 _]; subst. vm_compute in H63.
        discriminate.
Qed.

(** The buffer [int] scans holds only characters of an integer literal
    when [int] accepts the string. *)
Lemma py_int_buffer_chars isspace todecimal maxdigits s n :
  py_int isspace todecimal maxdigits s = Some n ->
  Forall (fun c => int_char c = true)
         (if forallb (fun ch => ch <? 128) s then s
          else transform_decimal_and_space isspace todecimal s).
Proof.
  rewrite py_int_unfold. cbv zeta.
  set (buffer := if forallb (fun ch => ch <? 128) s then s
                 else transform_decimal_and_space isspace todecimal s).
  intros H.
  apply skip_spaces_chars.
  change (Forall (fun c => int_char c = true) (skip_spaces buffer)).
  destruct (skip_spaces buffer) as [|c r]; [constructor|].
  cbv beta iota in H.
  match type of H with
  | (if ?t then _ else _) = _ => destruct t; [discriminate|]
  end.
  match type of H with
  | match ?t with _ => _ end = _ =>
      destruct t as [[[digits acc] rest]|] eqn:Hs; [|discriminate]
  end.
  destruct (digits =? 0)%nat; [discriminate|].
  destruct (exceeds_digit_limit maxdigits digits); [discriminate|].
  destruct (skip_spaces rest) eqn:Hr; [|discriminate].
  pose proof (scan_digits_chars _ _ _ _ _ _ _ Hs (skip_spaces_nil _ Hr))
    as Hbody.
  destruct (Z.eqb_spec c 43) as [->|N1].
  { constructor; [reflexivity|exact Hbody]. }
  destruct (Z.eqb_spec c 45) as [->|N2].
  { constructor; [reflexivity|exact Hbody]. }
  exact Hbody.
Qed.

(** Every character below DEL of a string [int] accepts may stand in an
    integer literal. *)
Lemma py_int_chars isspace todecimal maxdigits s n :
  py_int isspace todecimal maxdigits s = Some n ->
  Forall (fun c => c < 127 -> int_char c = true) s.
Proof.
  intros H. apply py_int_buffer_chars in H.
  destruct (forallb (fun ch => ch <? 128) s).
  - eapply Forall_impl; [|exact H]. cbv beta. auto.
  - eapply transform_chars. exact H.
Qed.

(** DEL, which the Unicode tables class as neither white space nor digit,
    becomes [?] in the buffer. *)
Lemma transform_del isspace todecimal s :
  isspace 127 = false -> todecimal 127 = None -> In 127 s ->
  ~ Forall (fun c => int_char c = true)
           (transform_decimal_and_space isspace todecimal s).
Proof.
  intros Hsp Hdec. induction s as [|ch s IH]; intros Hin H; [destruct Hin|].
  cbn [transform_decimal_and_space] in H.
  destruct (Z.ltb_spec ch 127) as [Hlt|Hge].
  - destruct Hin as [->|Hin]; [lia|].
    inversion H; subst. apply IH; assumption.
  - destruct (Z.eq_dec ch 127) as [->|Hne].
    + rewrite Hsp, Hdec in H. inversion H as [|? ? H63 _]; subst.
      vm_compute in H63. discriminate.
    + destruct Hin as [->|Hin]; [congruence|].
      destruct (isspace ch).
      * inversion H; subst. apply IH; assumption.
      * destruct (todecimal ch).
        -- inversion H; subst. apply IH; assumption.
        -- inversion H as [|? ? H63 _]; subst.
           vm_compute in H63. discriminate.
Qed.

(** X8: with method [hex], an argument that contains an ASCII character
    other than a digit, an underscore, a sign or white space (a letter,
    say) is never read as an integer: [int] raises [ValueError] and the
    text itself is converted.  For DEL (U+007F), which [int] looks up in
    the Unicode tables when the argument is not all ASCII, this needs the
    tables to class it as neither white space nor digit, as the Unicode
    database does. *)
Theorem main_hex_text_fallback
        isspace todecimal maxdigits randbelow (data : pystr) (c : Z) :
  In c data -> c < 128 -> int_char c = false ->
  (c = 127 -> isspace 127 = false /\ todecimal 127 = None) ->
  parse_int isspace todecimal maxdigits data = None
  /\ convert isspace todecimal maxdigits randbelow (Args data (py "hex"))
     = to_hex (VStr data).
Proof.
  intros Hin Hc Hn Hdel.
  assert (E : parse_int isspace todecimal maxdigits data = None).
  { unfold parse_int.
    destruct (py_int isspace todecimal maxdigits data) as [n|] eqn:E;
      [|reflexivity].
    exfalso.
    destruct (Z.eq_dec c 127) as [->|Hne].
    - destruct (Hdel eq_refl) as [Hsp Hdec].
      pose proof (py_int_buffer_chars _ _ _ _ _ E) as Hb.
      destruct (forallb (fun ch => ch <? 128) data).
      + rewrite Forall_forall in Hb. specialize (Hb 127 Hin). congruence.
      + exact (transform_del isspace todecimal data Hsp Hdec Hin Hb).
    - pose proof (py_int_chars _ _ _ _ _ E) as Hall.
      rewrite Forall_forall in Hall.
      specialize (Hall c Hin ltac:(lia)). congruence. }
  split; [exact E|].
  unfold convert. cbn [args_method args_data].
  change (pystr_eqb (py "hex") (py "hex")) with true. cbv iota.
  rewrite E. reflexivity.
Qed.

Lemma main_hex_text_fallback_witness :
  In 127 [52; 127; 0x664] /\ 127 < 128 /\ int_char 127 = false
  /\ parse_int (fun _ => false) (fun c => if c =? 0x664 then Some 4 else None)
               4300 [52; 127; 0x664] = None
  /\ convert (fun _ => false) (fun c => if c =? 0x664 then Some 4 else None)
             4300 draw_last (Args [52; 127; 0x664] (py "hex"))
     = to_hex (VStr [52; 127; 0x664]).
Proof.
  assert (Hin : In 127 [52; 127; 0x664]) by (cbn; auto).
  assert (Hc : 127 < 128) by lia.
  assert (Hn : int_char 127 = false) by reflexivity.
  split; [exact Hin|]. split; [exact Hc|]. split; [exact Hn|].
  exact (main_hex_text_fallback
           (fun _ => false) (fun c => if c =? 0x664 then Some 4 else None)
           4300 draw_last [52; 127; 0x664] 127 Hin Hc Hn
           (fun _ => conj eq_refl eq_refl)).
Defined.

(** ** Failures of a run *)

Lemma convert_raises isspace todecimal maxdigits randbelow args e :
  randbelow_ok randbelow ->
  outcome (convert isspace todecimal maxdigits randbelow args) = inl e ->
  str_encode_utf8 (args_data args) = inl e.
Proof.
  intros Hr. unfold convert.
  destruct (pystr_eqb (args_method args) (py "hex")).
  { destruct (parse_int isspace todecimal maxdigits (args_data args))
      as [n|]; [discriminate|].
    apply (method_raises_encode_error (Method (py "to_hex") to_hex)).
    cbn. auto. }
  destruct (pystr_eqb (args_method args) (py "base64")).
  { apply (method_raises_encode_error (Method (py "to_base64") to_base64)).
    cbn. auto. }
  destruct (pystr_eqb (args_method args) (py "md5")).
  { apply (method_raises_encode_error (Method (py "to_md5") to_md5)).
    cbn. auto. }
  destruct (random_choice_methods randbelow Hr) as (m & E & Hin).
  rewrite (randomly_convert_chosen randbelow _ m E), outcome_try_reraise.
  apply method_raises_encode_error. exact Hin.
Qed.

(** X9: the only exception a run can report is the [UnicodeEncodeError] of
    the positional argument itself, raised because it contains a
    surrogate; the argument being a [str], the [TypeError] handler and the
    catch-all handler of [main] are never entered. *)
Theorem main_fails_only_on_surrogates
        isspace todecimal maxdigits randbelow (args : namespace) (e : exn) :
  randbelow_ok randbelow ->
  outcome (convert isspace todecimal maxdigits randbelow args) = inl e ->
  (exists start stop,
      e = UnicodeEncodeError (py "utf-8") (args_data args) start stop
            (py "surrogates not allowed"))
  /\ ~ no_surrogate (args_data args)
  /\ is_TypeError e = false /\ is_ValueError e = true.
Proof.
  intros Hr H.
  pose proof (convert_raises _ _ _ _ _ _ Hr H) as E.
  pose proof (utf8_encoder_error _ _ _ _ E) as (start & stop & ->).
  split; [eauto|]. split; [|split; reflexivity].
  intros Hn. destruct (utf8_encoder_total (args_data args) 0%nat _ Hn)
    as [b Eb].
  unfold str_encode_utf8 in E. congruence.
Qed.

Lemma main_fails_only_on_surrogates_witness :
  randbelow_ok draw_last
  /\ outcome (convert (fun _ => false) (fun _ => None) 4300 draw_last
                (Args [97; 0xD800; 0xDFFF; 98] (py "md5")))
     = inl (UnicodeEncodeError (py "utf-8") [97; 0xD800; 0xDFFF; 98] 1 3
              (py "surrogates not allowed"))
  /\ ~ no_surrogate [97; 0xD800; 0xDFFF; 98].
Proof.
  split; [exact draw_last_ok|]. split; [reflexivity|].
  exact (proj1 (proj2 (main_fails_only_on_surrogates
                         (fun _ => false) (fun _ => None) 4300 draw_last
                         (Args [97; 0xD800; 0xDFFF; 98] (py "md5")) _
                         draw_last_ok eq_refl))).
Defined.

Lemma convert_returns isspace todecimal maxdigits randbelow args :
  randbelow_ok randbelow -> no_surrogate (args_data args) ->
  exists r, convert isspace todecimal maxdigits randbelow args = ret r.
Proof.
  intros Hr Hn.
  destruct (convert_on_text isspace todecimal maxdigits randbelow args Hr)
    as [H|(e & l & E & _)]; [exact H|].
  assert (H : outcome (convert isspace todecimal maxdigits randbelow args)
              = inl e) by (rewrite E; reflexivity).
  apply convert_raises in H; [|exact Hr].
  destruct (utf8_encoder_total (args_data args) 0%nat _ Hn) as [b Eb].
  unfold str_encode_utf8 in H. congruence.
Qed.

(** X10: once [parse_args] has returned the namespace, [main] ends the
    process with status 0 or 1, and with 0 exactly when the argument
    contains no surrogate code point or, with method [hex], when [int]
    accepts it.  (Argument errors and [-h] end the process inside
    [parse_args], before this point.) *)
Theorem main_exit_status
        isspace todecimal maxdigits randbelow (args : namespace) :
  randbelow_ok randbelow ->
  (snd (main isspace todecimal maxdigits randbelow args) = 0
   \/ snd (main isspace todecimal maxdigits randbelow args) = 1)
  /\ (snd (main isspace todecimal maxdigits randbelow args) = 0 <->
      no_surrogate (args_data args)
      \/ (pystr_eqb (args_method args) (py "hex") = true
          /\ parse_int isspace todecimal maxdigits (args_data args)
             <> None)).
Proof.
  intros Hr.
  destruct (convert_on_text isspace todecimal maxdigits randbelow args Hr)
    as [[r E]|(e & l & E & Hv & _)].
  - rewrite (main_success _ _ _ _ args r E). cbn [snd].
    split; [left; reflexivity|]. split; [intros _|reflexivity].
    unfold convert in E.
    destruct (pystr_eqb (args_method args) (py "hex")) eqn:Hm.
    { destruct (parse_int isspace todecimal maxdigits (args_data args))
        as [n|] eqn:Hp.
      - right. split; [reflexivity|discriminate].
      - left. unfold to_hex in E.
        destruct (str_encode_utf8 (args_data args)) as [e|b] eqn:Eb.
        + cbn in E. destruct (is_ValueError e); discriminate.
        + eapply utf8_encoder_surrogate. exact Eb. }
    left.
    destruct (str_encode_utf8 (args_data args)) as [e|b] eqn:Eb;
      [|eapply utf8_encoder_surrogate; exact Eb].
    exfalso.
    destruct (pystr_eqb (args_method args) (py "base64")).
    { rewrite (to_base64_str_error _ e Eb) in E. discriminate. }
    destruct (pystr_eqb (args_method args) (py "md5")).
    { rewrite (to_md5_str_error _ e Eb) in E. discriminate. }
    destruct (random_choice_methods randbelow Hr) as (m & Em & Hin).
    rewrite (randomly_convert_chosen randbelow _ m Em) in E.
    destruct Hin as [<-|[<-|[<-|[]]]]; cbn [method_call] in E.
    + rewrite (to_hex_str_error _ e Eb) in E. discriminate.
    + rewrite (to_base64_str_error _ e Eb) in E. discriminate.
    + rewrite (to_md5_str_error _ e Eb) in E. discriminate.
  - rewrite (main_value_error _ _ _ _ args l e E Hv). cbn [snd].
    split; [right; reflexivity|]. split; [discriminate|].
    intros [Hn|[Hm Hp]]; exfalso.
    + destruct (convert_returns isspace todecimal maxdigits randbelow args
                  Hr Hn) as [r Er]. rewrite E in Er. discriminate.
    + unfold convert in E. rewrite Hm in E.
      destruct (parse_int isspace todecimal maxdigits (args_data args))
        eqn:Hq; [discriminate|apply Hp; reflexivity].
Qed.

Lemma main_exit_status_witness :
  randbelow_ok draw_last
  /\ (snd (main (fun _ => false) (fun _ => None) 4300 draw_last
                (Args [0xDC80] (py "random"))) = 0
      \/ snd (main (fun _ => false) (fun _ => None) 4300 draw_last
                   (Args [0xDC80] (py "random"))) = 1)
  /\ (snd (main (fun _ => false) (fun _ => None) 4300 draw_last
                (Args [0xDC80] (py "random"))) = 0 <->
      no_surrogate [0xDC80]
      \/ (pystr_eqb (py "random") (py "hex") = true
          /\ parse_int (fun _ => false) (fun _ => None) 4300 [0xDC80]
             <> None)).
Proof.
  split; [exact draw_last_ok|].
  exact (main_exit_status (fun _ => false) (fun _ => None) 4300 draw_last
           (Args [0xDC80] (py "random")) draw_last_ok).
Defined.

(** ** Log records *)

Lemma main_random_failure isspace todecimal maxdigits randbelow
      data m e first :
  random_choice randbelow methods = inr m ->
  method_call m (VStr data) = ([first], inl e) ->
  is_ValueError e = true ->
  main isspace todecimal maxdigits randbelow (Args data (py "random"))
  = ([first;
      LogError (py "Error during random conversion using " ++ method_name m
                ++ py ": " ++ exn_str e);
      LogError (py "Value error: " ++ exn_str e);
      Stderr (py "Error: " ++ exn_str e)], 1).
Proof.
  intros Em H Hv.
  rewrite (main_value_error isspace todecimal maxdigits randbelow
             (Args data (py "random"))
             [first;
              LogError (py "Error during random conversion using "
                        ++ method_name m ++ py ": " ++ exn_str e)]
             e); [reflexivity| |exact Hv].
  change (convert isspace todecimal maxdigits randbelow
            (Args data (py "random")))
    with (randomly_convert randbelow (VStr data)).
  rewrite (randomly_convert_chosen randbelow data m Em), H. reflexivity.
Qed.

(** X11: with method [random], an argument that contains a surrogate is
    logged three times before the error line is printed: once by the
    chosen method, once by [randomly_convert], naming that method, and
    once by [main]; the run then exits with status 1. *)
Theorem main_random_failure_trace
        isspace todecimal maxdigits randbelow (data : pystr) :
  randbelow_ok randbelow -> ~ no_surrogate data ->
  exists e name first,
    str_encode_utf8 data = inl e
    /\ In (name, first)
          [(py "to_hex",
            LogError (py "Error converting to hex: " ++ exn_str e));
           (py "to_base64",
            LogError (py "Error converting to base64: " ++ exn_str e));
           (py "to_md5",
            LogException
              (py "Unexpected error during MD5 hash generation: "
               ++ exn_str e) e)]
    /\ main isspace todecimal maxdigits randbelow (Args data (py "random"))
       = ([first;
           LogError (py "Error during random conversion using " ++ name
                     ++ py ": " ++ exn_str e);
           LogError (py "Value error: " ++ exn_str e);
           Stderr (py "Error: " ++ exn_str e)], 1).
Proof.
  intros Hr Hn.
  destruct (str_encode_utf8 data) as [e|b] eqn:E.
  2:{ destruct Hn. eapply utf8_encoder_surrogate. exact E. }
  pose proof (str_encode_error data e E) as Hv.
  destruct (random_choice_methods randbelow Hr) as (m & Em & Hin).
  exists e.
  destruct Hin as [<-|[<-|[<-|[]]]].
  - exists (py "to_hex"),
      (LogError (py "Error converting to hex: " ++ exn_str e)).
    split; [reflexivity|]. split; [left; reflexivity|].
    apply (main_random_failure _ _ _ _ _ _ _ _ Em); [|exact Hv].
    apply to_hex_str_error. exact E.
  - exists (py "to_base64"),
      (LogError (py "Error converting to base64: " ++ exn_str e)).
    split; [reflexivity|]. split; [right; left; reflexivity|].
    apply (main_random_failure _ _ _ _ _ _ _ _ Em); [|exact Hv].
    apply to_base64_str_error. exact E.
  - exists (py "to_md5"),
      (LogException (py "Unexpected error during MD5 hash generation: "
                     ++ exn_str e) e).
    split; [reflexivity|]. split; [right; right; left; reflexivity|].
    apply (main_random_failure _ _ _ _ _ _ _ _ Em); [|exact Hv].
    apply to_md5_str_error. exact E.
Qed.

Lemma main_random_failure_trace_witness :
  randbelow_ok draw_last /\ ~ no_surrogate [0xDC80]
  /\ exists e name first,
       str_encode_utf8 [0xDC80] = inl e
       /\ In (name, first)
             [(py "to_hex",
               LogError (py "Error converting to hex: " ++ exn_str e));
              (py "to_base64",
               LogError (py "Error converting to base64: " ++ exn_str e));
              (py "to_md5",
               LogException
                 (py "Unexpected error during MD5 hash generation: "
                  ++ exn_str e) e)]
       /\ main (fun _ => false) (fun _ => None) 4300 draw_last
               (Args [0xDC80] (py "random"))
          = ([first;
              LogError (py "Error during random conversion using " ++ name
                        ++ py ": " ++ exn_str e);
              LogError (py "Value error: " ++ exn_str e);
              Stderr (py "Error: " ++ exn_str e)], 1).
Proof.
  assert (Hn : ~ no_surrogate [0xDC80]).
  { intros H. inversion H as [|? ? Hs _]. discriminate Hs. }
  split; [exact draw_last_ok|]. split; [exact Hn|].
  exact (main_random_failure_trace (fun _ => false) (fun _ => None) 4300
           draw_last [0xDC80] draw_last_ok Hn).
Defined.

(** X12: a conversion that returns has written no log record: on every
    input, whenever one of the four methods returns a value, the call has
    no event at all. *)
Theorem conversions_log_only_on_failure
        (randbelow : nat -> nat) (data : value) (r : pystr) :
  randbelow_ok randbelow ->
  (outcome (to_hex data) = inr r -> to_hex data = ret r)
  /\ (outcome (to_base64 data) = inr r -> to_base64 data = ret r)
  /\ (outcome (to_md5 data) = inr r -> to_md5 data = ret r)
  /\ (outcome (randomly_convert randbelow data) = inr r ->
      randomly_convert randbelow data = ret r).
Proof.
  intros Hr.
  assert (Q : forall m : M pystr,
             quiet_or_value_error m -> outcome m = inr r -> m = ret r).
  { intros m [[r' ->]|(e & l & -> & _)] H; [|discriminate].
    injection H as ->. reflexivity. }
  destruct data as [n|b|s|b|].
  - repeat split; intros H; try discriminate. injection H as <-. reflexivity.
  - repeat split; intros H; try discriminate. injection H as <-. reflexivity.
  - repeat split; apply Q.
    + apply (methods_on_text (Method (py "to_hex") to_hex)). cbn. auto.
    + apply (methods_on_text (Method (py "to_base64") to_base64)).
      cbn. auto.
    + apply (methods_on_text (Method (py "to_md5") to_md5)). cbn. auto.
    + apply randomly_convert_on_text. exact Hr.
  - repeat split; intros H; discriminate.
  - repeat split; intros H; discriminate.
Qed.

Lemma conversions_log_only_on_failure_witness :
  randbelow_ok draw_last
  /\ (outcome (to_base64 (VStr (py "abc"))) = inr (py "YWJj") ->
      to_base64 (VStr (py "abc")) = ret (py "YWJj")).
Proof.
  split; [exact draw_last_ok|].
  exact (proj1 (proj2 (conversions_log_only_on_failure draw_last
                         (VStr (py "abc")) (py "YWJj") draw_last_ok))).
Defined.

(** ** The digit limit of [int] *)

Lemma digits_ascii ds :
  forallb is_ascii_digit ds = true -> Forall (fun c => 0 <= c < 128) ds.
Proof.
  induction ds as [|c ds IH]; [constructor|].
  cbn [forallb]. intros H. apply andb_true_iff in H. destruct H as [Hc Hd].
  apply ascii_digit_range in Hc. constructor; [lia|auto].
Qed.

(** X13: with method [hex], a string of ASCII digits longer than the
    interpreter's limit on integer literals (when the limit is set and the
    string has more than 640 digits) is refused by [int]; the run then
    prints the hexadecimal form of the characters, two digits for each. *)
Theorem main_hex_over_digit_limit
        isspace todecimal maxdigits randbelow (ds : pystr) :
  forallb is_ascii_digit ds = true ->
  (640 < length ds)%nat -> (0 < maxdigits < length ds)%nat ->
  parse_int isspace todecimal maxdigits ds = None
  /\ main isspace todecimal maxdigits randbelow (Args ds (py "hex"))
     = ([Stdout (py "Converted data: " ++ bytes_hex ds)], 0).
Proof.
  intros Hd Hlen Hmax.
  assert (E : parse_int isspace todecimal maxdigits ds = None).
  { unfold parse_int. rewrite py_int_unfold. cbv zeta.
    rewrite (digits_below_128 ds Hd).
    destruct ds as [|c ds']; [cbn in Hlen; lia|].
    assert (Hc : 48 <= c <= 57).
    { cbn [forallb] in Hd. apply andb_true_iff in Hd.
      apply ascii_digit_range. apply Hd. }
    assert (Hsp : Py_ISSPACE c = false).
    { unfold Py_ISSPACE. decide_tests. reflexivity. }
    cbn [skip_spaces]. rewrite Hsp.
    replace (c =? 43) with false by (symmetry; apply Z.eqb_neq; lia).
    replace (c =? 45) with false by (symmetry; apply Z.eqb_neq; lia).
    cbn [orb].
    replace (c =? 95) with false by (symmetry; apply Z.eqb_neq; lia).
    rewrite (scan_digits_numeral (c :: ds') 0 0%nat 0 Hd eq_refl).
    cbn [Nat.add].
    replace (exceeds_digit_limit maxdigits (length (c :: ds'))) with true.
    - destruct (length (c :: ds') =? 0)%nat; reflexivity.
    - symmetry. unfold exceeds_digit_limit.
      rewrite !andb_true_iff, !Nat.ltb_lt. lia. }
  split; [exact E|].
  apply main_success. unfold convert. cbn [args_method args_data].
  change (pystr_eqb (py "hex") (py "hex")) with true. cbv iota.
  rewrite E. apply to_hex_str_ok. apply utf8_encoder_ascii.
  apply digits_ascii. exact Hd.
Qed.

Lemma main_hex_over_digit_limit_witness :
  forallb is_ascii_digit (repeat 49 641) = true
  /\ (640 < length (repeat 49 641))%nat
  /\ (0 < 640 < length (repeat 49 641))%nat
  /\ parse_int (fun _ => false) (fun _ => None) 640 (repeat 49 641) = None
  /\ main (fun _ => false) (fun _ => None) 640 draw_last
          (Args (repeat 49 641) (py "hex"))
     = ([Stdout (py "Converted data: " ++ bytes_hex (repeat 49 641))], 0).
Proof.
  assert (Hd : forallb is_ascii_digit (repeat 49 641) = true)
    by (vm_compute; reflexivity).
  assert (Hl : (640 < length (repeat 49 641))%nat)
    by (rewrite repeat_length; lia).
  assert (Hm : (0 < 640 < length (repeat 49 641))%nat)
    by (rewrite repeat_length; lia).
  split; [exact Hd|]. split; [exact Hl|]. split; [exact Hm|].
  exact (main_hex_over_digit_limit (fun _ => false) (fun _ => None) 640
           draw_last (repeat 49 641) Hd Hl Hm).
Defined.
